(** * MCP client: the tool-use conversation loop of [client.py]

    A shallow embedding of [MCPClient.connect] and [MCPClient.process_query]
    (src/mcp-client-python/client.py).  The Python coroutines talk to three
    collaborators: the tool server (through the MCP session), the model API
    ([anthropic.messages.create]) and standard output.  They are embedded as
    computations in a state-and-exception monad whose state holds the client
    object, the chronological trace of calls made to the collaborators and
    what was printed; the collaborators themselves are an arbitrary [World]
    of oracles that answer from the trace so far. *)

From Stdlib Require Import ZArith Lia.
From stdpp Require Import base option list strings gmap.

Local Open Scope string_scope.
Local Open Scope list_scope.

(** ** Values shared by all parts *)

(** JSON values, as read from the configuration file by [json.load]. *)
#[local] Set Warnings "-register-all".
Inductive JValue : Type :=
| JNull
| JBool (b : bool)
| JNum (n : Z)
| JStr (s : string)
| JList (l : list JValue)
| JDict (d : list (string * JValue)).

(** Python truthiness, as used by [if not command]. *)
Definition truthy (v : JValue) : bool :=
  match v with
  | JNull => false
  | JBool b => b
  | JNum n => negb (n =? 0)%Z
  | JStr s => negb (String.eqb s EmptyString)
  | JList l => match l with [] => false | _ => true end
  | JDict d => match d with [] => false | _ => true end
  end.

(** [dict.get(key)]: [None] when the key is absent. *)
Definition dict_get (d : gmap string JValue) (key : string) : JValue :=
  default JNull (d !! key).

(** [dict.get(key, dflt)]. *)
Definition dict_get_default (d : gmap string JValue) (key : string)
    (dflt : JValue) : JValue :=
  default dflt (d !! key).

(** The exceptions the embedded code can end with.  [ValueError] is raised by
    [connect] itself; [AttributeError] and [IndexError] come from attribute
    and index accesses of [process_query]; [Failure] stands for anything a
    collaborator raises (API error, tool error, process launch error). *)
Inductive Exception : Type :=
| ValueError (msg : string)
| AttributeError
| IndexError
| Failure (what : string).

Inductive outcome (A : Type) : Type :=
| Returns (a : A)
| Raises (e : Exception).
Arguments Returns {A} a.
Arguments Raises {A} e.

(** [StdioServerParameters(command=..., args=..., env=...)]. *)
Record StdioServerParameters : Type := {
  command : JValue;
  args : JValue;
  env : JValue
}.

Definition is_str (v : JValue) : bool :=
  match v with JStr _ => true | _ => false end.

(** [StdioServerParameters] is a pydantic model with the fields
    [command: str], [args: list[str]] and [env: dict[str, str] | None]:
    its constructor raises a [ValidationError] on values of other
    shapes. *)
Definition valid_parameters (p : StdioServerParameters) : bool :=
  is_str (command p)
  && match args p with
     | JList l => forallb is_str l
     | _ => false
     end
  && match env p with
     | JNull => true
     | JDict d => forallb (fun kv => is_str kv.2) d
     | _ => false
     end.

(** The pair [(stdio, write)] yielded by [stdio_client], and the
    [ClientSession] built on it. *)
Inductive Transport : Type := StdioTransport (params : StdioServerParameters).
Inductive ClientSession : Type := Session (transport : Transport).

(** What [AsyncExitStack] holds for release at [cleanup]. *)
Inductive Resource : Type :=
| TransportContext (t : Transport)
| SessionContext (s : ClientSession).

(** The attributes of an [MCPClient] object. *)
Record MCPClient : Type := {
  session : option ClientSession;
  stdio_write : option Transport;
  exit_stack : list Resource
}.

(** [MCPClient.__init__]. *)
Definition init : MCPClient :=
  {| session := None; stdio_write := None; exit_stack := [] |}.

Inductive Role : Type := user | assistant.

Definition newline : string := String (Ascii.ascii_of_nat 10) EmptyString.

(** [SYSTEM_PROMPT], the module constant. *)
Definition SYSTEM_PROMPT : string :=
  "You are an AI assistant that helps users by calling tools when necessary. "
  +:+ "Use the tools provided to you to answer user queries effectively. "
  +:+ "Before executing any SQL, remember that the schema is as follows:"
  +:+ newline +:+ newline
  +:+ "Based on the schema information provided, you have access to one table:"
  +:+ newline +:+ newline
  +:+ "## **CompanyFounding** (public schema)"
  +:+ newline +:+ newline
  +:+ "This table contains information about companies and has the following columns:"
  +:+ newline +:+ newline
  +:+ "- **Symbol** (text, NOT NULL, Primary Key) - Company stock symbol" +:+ newline
  +:+ "- **Security** (text, nullable) - Security name/description" +:+ newline
  +:+ "- **GICS Sector** (text, nullable) - Global Industry Classification Standard sector" +:+ newline
  +:+ "- **GICS Sub-Industry** (text, nullable) - GICS sub-industry classification" +:+ newline
  +:+ "- **Headquarters Location** (text, nullable) - Company headquarters location" +:+ newline
  +:+ "- **Date added** (text, nullable) - Date when the company was added" +:+ newline
  +:+ "- **CIK** (bigint, nullable) - Central Index Key (SEC identifier)" +:+ newline
  +:+ "- **Founded** (text, nullable) - Company founding date/year"
  +:+ "When executing SQL, remember that table and column names are case-sensitive. "
  +:+ "If using Pinecone, do not use list-indexes tool; you know that the index name is 'books' and namespace is 'namespace1'. "
  +:+ "For Semantic Search, use the tool 'search-records' with the query parameter. "
  +:+ "If you don't know the answer, use the tools to find out.".

(** The client never looks inside a tool's arguments, a tool's result payload
    or a tool's input schema: they are passed on as they come.  The only
    operation applied to one of them is Python's [str()] on the arguments,
    inside the f-string of the [Calling tool] marker. *)
Class Payloads : Type := {
  ToolArgs : Type;
  ToolContent : Type;
  Schema : Type;
  py_str : ToolArgs -> string
}.

Section Client.

Context {P : Payloads}.

(** ** Data model *)

(** A tool as listed by the session ([response.tools]). *)
Record Tool : Type := {
  tool_name : string;
  tool_description : string;
  inputSchema : Schema
}.

(** A tool as declared to the model (an element of [available_tools]). *)
Record ToolDecl : Type := {
  decl_name : string;
  decl_description : string;
  input_schema : Schema
}.

(** The [content] of a message of the history: a string ([query],
    [content.text]) or the payload of a tool result ([result.content]). *)
Inductive MessageContent : Type :=
| Text (s : string)
| ToolPayload (c : ToolContent).

Record Message : Type := {
  role : Role;
  content : MessageContent
}.

(** A content block of a model response.  [process_query] dispatches on
    [content.type]; on a [tool_use] block it asks [hasattr(content, 'text')],
    so that attribute is optional there.  [OtherBlock] is a block of any
    other type (it has no [text] attribute). *)
Inductive ContentBlock : Type :=
| TextBlock (text : string)
| ToolUseBlock (name : string) (input : ToolArgs) (text : option string)
| OtherBlock (type : string).

(** The value of [block.text], when the attribute exists. *)
Definition block_text (b : ContentBlock) : option string :=
  match b with
  | TextBlock t => Some t
  | ToolUseBlock _ _ t => t
  | OtherBlock _ => None
  end.

Definition is_tool_use (b : ContentBlock) : bool :=
  match b with ToolUseBlock _ _ _ => true | _ => false end.

Definition is_text_block (b : ContentBlock) : bool :=
  match b with TextBlock _ => true | _ => false end.

(** The block has the attributes that the SDK declares for its type and no
    other: the SDK's tool-use block has [name] and [input], and no
    [text]. *)
Definition sdk_shaped (b : ContentBlock) : bool :=
  match b with
  | ToolUseBlock _ _ (Some _) => false
  | _ => true
  end.

(** The keyword arguments of one [anthropic.messages.create] call; a keyword
    that the call does not pass is [None]. *)
Record Request : Type := {
  model : string;
  max_tokens : Z;
  system : option string;
  messages : list Message;
  tools : option (list ToolDecl)
}.

(** [response.content] of a model response. *)
Definition Response : Type := list ContentBlock.

(** [result] of [session.call_tool]. *)
Record CallToolResult : Type := {
  result_content : ToolContent
}.

(** One call to a collaborator, with what it answered. *)
Inductive Event : Type :=
| EvStdioClient (params : StdioServerParameters) (r : outcome Transport)
| EvClientSession (t : Transport) (r : outcome ClientSession)
| EvInitialize (r : outcome unit)
| EvListTools (r : outcome (list Tool))
| EvCallTool (name : string) (arguments : ToolArgs) (r : outcome CallToolResult)
| EvCreate (req : Request) (r : outcome Response).

(** One [print] call. *)
Inductive Printed : Type :=
| PrintConnected (names : list string)
| PrintText (text : string)
| PrintToolCall (name : string) (arguments : ToolArgs)
| PrintToolResult (c : ToolContent).

(** The collaborators.  Each oracle sees the calls made so far, so the same
    request may be answered differently at different times. *)
Record World : Type := {
  w_stdio_client : list Event -> StdioServerParameters -> outcome Transport;
  w_client_session : list Event -> Transport -> outcome ClientSession;
  w_initialize : list Event -> outcome unit;
  w_list_tools : list Event -> outcome (list Tool);
  w_call_tool : list Event -> string -> ToolArgs -> outcome CallToolResult;
  w_create : list Event -> Request -> outcome Response
}.

Variable W : World.

(** ** The monad *)

Record State : Type := {
  self : MCPClient;
  trace : list Event;
  stdout : list Printed
}.

Definition M (A : Type) : Type := State -> outcome A * State.

Definition ret {A} (a : A) : M A := fun st => (Returns a, st).

Definition raise {A} (e : Exception) : M A := fun st => (Raises e, st).

(** A step that does not touch the state. *)
Definition lift {A} (o : outcome A) : M A := fun st => (o, st).

Definition bind {A B} (m : M A) (k : A -> M B) : M B :=
  fun st =>
    match m st with
    | (Returns a, st') => k a st'
    | (Raises e, st') => (Raises e, st')
    end.

Notation "'let!' x ':=' m 'in' k" := (bind m (fun x => k))
  (at level 10, x name, m at level 100, k at level 200).
Notation "'do!' m 'in' k" := (bind m (fun _ => k))
  (at level 10, m at level 100, k at level 200).

(** Log a call together with its answer, and hand the answer on. *)
Definition call {A} (ev : outcome A -> Event) (answer : list Event -> outcome A)
    : M A :=
  fun st =>
    let r := answer (trace st) in
    (r, {| self := self st; trace := trace st ++ [ev r]; stdout := stdout st |}).

Definition print (p : Printed) : M unit :=
  fun st =>
    (Returns tt,
     {| self := self st; trace := trace st; stdout := stdout st ++ [p] |}).

Definition update_self (f : MCPClient -> MCPClient) : M unit :=
  fun st =>
    (Returns tt,
     {| self := f (self st); trace := trace st; stdout := stdout st |}).

(** [self.session.<method>]: an attribute access on [None] when no session
    was opened. *)
Definition self_session : M ClientSession :=
  fun st =>
    match session (self st) with
    | Some s => (Returns s, st)
    | None => (Raises AttributeError, st)
    end.

(** Assignments to the attributes of [self]. *)
Definition push_exit_stack (r : Resource) (c : MCPClient) : MCPClient :=
  {| session := session c; stdio_write := stdio_write c;
     exit_stack := exit_stack c ++ [r] |}.

Definition set_stdio_write (t : Transport) (c : MCPClient) : MCPClient :=
  {| session := session c; stdio_write := Some t;
     exit_stack := exit_stack c |}.

Definition set_session (s : ClientSession) (c : MCPClient) : MCPClient :=
  {| session := Some s; stdio_write := stdio_write c;
     exit_stack := exit_stack c |}.

(** [await self.exit_stack.enter_async_context(cm)]: enter the context and,
    when that succeeds, push it on the stack. *)
Definition enter_async_context {A} (ev : outcome A -> Event)
    (answer : list Event -> outcome A) (res : A -> Resource) : M A :=
  let! a := call ev answer in
  do! update_self (push_exit_stack (res a)) in
  ret a.

Definition session_list_tools : M (list Tool) :=
  do! self_session in
  call EvListTools (w_list_tools W).

Definition session_call_tool (name : string) (arguments : ToolArgs)
    : M CallToolResult :=
  do! self_session in
  call (EvCallTool name arguments) (fun tr => w_call_tool W tr name arguments).

Definition messages_create (req : Request) : M Response :=
  call (EvCreate req) (fun tr => w_create W tr req).

(** ** [MCPClient.connect]

    The constructor [StdioServerParameters(...)] validates its arguments
    before anything is launched; its [ValidationError] is the [Failure]
    raised on parameters that are not [valid_parameters]. *)

Definition connect (server_config : gmap string JValue) : M unit :=
  let command := dict_get server_config "command" in
  if negb (truthy command) then
    raise (ValueError "Server configuration must include a 'command'")
  else
    let args := dict_get_default server_config "args" (JList []) in
    let env := dict_get_default server_config "env" (JDict []) in
    let server_params := {| command := command; args := args; env := env |} in
    if negb (valid_parameters server_params) then
      raise (Failure "ValidationError")
    else
    let! stdio_transport :=
      enter_async_context (EvStdioClient server_params)
        (fun tr => w_stdio_client W tr server_params) TransportContext in
    do! update_self (set_stdio_write stdio_transport) in
    let! s :=
      enter_async_context (EvClientSession stdio_transport)
        (fun tr => w_client_session W tr stdio_transport) SessionContext in
    do! update_self (set_session s) in
    do! self_session in
    do! call EvInitialize (w_initialize W) in
    let! tools := session_list_tools in
    print (PrintConnected (map tool_name tools)).

(** ** [MCPClient.process_query] *)

(** One element of [available_tools]. *)
Definition tool_decl (tool : Tool) : ToolDecl :=
  {| decl_name := tool_name tool;
     decl_description := tool_description tool;
     input_schema := inputSchema tool |}.

(** [f"[Calling tool {tool_name} with args {tool_args}]"]. *)
Definition calling_tool (tool_name : string) (tool_args : ToolArgs) : string :=
  "[Calling tool " +:+ tool_name +:+ " with args " +:+ py_str tool_args +:+ "]".

(** [hasattr(content, 'text') and content.text]. *)
Definition has_nonempty_text (b : ContentBlock) : bool :=
  match block_text b with
  | Some t => negb (String.eqb t EmptyString)
  | None => false
  end.

(** [response.content[0].text]. *)
Definition first_text (response : Response) : outcome string :=
  match response with
  | [] => Raises IndexError
  | b :: _ =>
      match block_text b with
      | Some t => Returns t
      | None => Raises AttributeError
      end
  end.

(** The keyword arguments of the initial call. *)
Definition initial_request (messages : list Message)
    (available_tools : list ToolDecl) : Request :=
  {| model := "claude-sonnet-4-0";
     max_tokens := 10000;
     system := None;
     messages := messages;
     tools := Some available_tools |}.

(** The keyword arguments of the call that follows a tool result. *)
Definition followup_request (messages : list Message) : Request :=
  {| model := "claude-sonnet-4-0";
     max_tokens := 10000;
     system := Some SYSTEM_PROMPT;
     messages := messages;
     tools := None |}.

(** The two appends to [messages] of the [tool_use] branch:
    [{"role": "assistant", "content": content.text}] under the [hasattr]
    guard, then [{"role": "user", "content": result.content}]. *)
Definition with_tool_result (content : ContentBlock) (result : CallToolResult)
    (messages : list Message) : list Message :=
  let messages :=
    if has_nonempty_text content then
      messages ++ [{| role := assistant;
                      content := Text (default EmptyString (block_text content)) |}]
    else messages in
  messages ++ [{| role := user;
                  content := ToolPayload (result_content result) |}].

(** The [for content in response.content] loop.  The iteration runs over the
    content list of the response it was started on; rebinding [response]
    inside the body does not change what is iterated.  The loop's variables
    are [messages] and [final_text]. *)
Fixpoint for_content (blocks : list ContentBlock) (messages : list Message)
    (final_text : list string) : M (list Message * list string) :=
  match blocks with
  | [] => ret (messages, final_text)
  | content :: rest =>
      match content with
      | TextBlock text =>
          do! print (PrintText text) in
          for_content rest messages (final_text ++ [text])
      | ToolUseBlock tool_name tool_args _ =>
          do! print (PrintToolCall tool_name tool_args) in
          let! result := session_call_tool tool_name tool_args in
          let final_text := final_text ++ [calling_tool tool_name tool_args] in
          let messages := with_tool_result content result messages in
          do! print (PrintToolResult (result_content result)) in
          let! response := messages_create (followup_request messages) in
          let! text := lift (first_text response) in
          for_content rest messages (final_text ++ [text])
      | OtherBlock _ => for_content rest messages final_text
      end
  end.

(** The body of [process_query] up to its [return]: the values of [messages]
    and [final_text] when the loop is over. *)
Definition conversation (query : string) : M (list Message * list string) :=
  let messages := [{| role := user; content := Text query |}] in
  let! tools := session_list_tools in
  let available_tools := map tool_decl tools in
  let! response := messages_create (initial_request messages available_tools) in
  for_content response messages [].

Definition process_query (query : string) : M string :=
  let! r := conversation query in
  ret (String.concat newline (snd r)).

End Client.

(** ** Observing a run *)

Section Observations.

Context {P : Payloads}.

(** The calls made to the collaborators while [m] runs from [st]. *)
Definition during {A} (m : M A) (st : State) : list Event :=
  drop (length (trace st)) (trace (m st).2).

(** The requests of the model calls among [evs], in order. *)
Definition requests (evs : list Event) : list Request :=
  omap (fun ev => match ev with EvCreate req _ => Some req | _ => None end) evs.

(** The responses the model gave among [evs], in order. *)
Definition responses (evs : list Event) : list Response :=
  omap (fun ev =>
          match ev with EvCreate _ (Returns r) => Some r | _ => None end) evs.

(** The answers to the tool invocations among [evs], in order. *)
Definition tool_outcomes (evs : list Event) : list (outcome CallToolResult) :=
  omap (fun ev => match ev with EvCallTool _ _ r => Some r | _ => None end) evs.

(** For each tool invocation among [evs], in order: the payload of its
    result, or [None] when the invocation raised. *)
Definition tool_answers (evs : list Event) : list (option ToolContent) :=
  map (fun o =>
         match o with
         | Returns result => Some (result_content result)
         | Raises _ => None
         end)
      (tool_outcomes evs).

(** The tool invocations among [evs]: name and arguments. *)
Definition tool_calls (evs : list Event) : list (string * ToolArgs) :=
  omap (fun ev =>
          match ev with EvCallTool n a _ => Some (n, a) | _ => None end) evs.

(** The number of [list_tools] calls among [evs]. *)
Definition list_tools_calls (evs : list Event) : nat :=
  length (List.filter (fun ev => match ev with EvListTools _ => true | _ => false end)
                 evs).

(** The tool-use blocks of a response: name and arguments. *)
Definition tool_uses (response : Response) : list (string * ToolArgs) :=
  omap (fun b =>
          match b with ToolUseBlock n a _ => Some (n, a) | _ => None end)
       response.

(** The texts of the text blocks of a response. *)
Definition texts (response : Response) : list string :=
  omap (fun b => match b with TextBlock t => Some t | _ => None end) response.

(** The payloads of the tool-result messages of a history. *)
Definition tool_results (history : list Message) : list ToolContent :=
  omap (fun m =>
          match role m, content m with
          | user, ToolPayload c => Some c
          | _, _ => None
          end) history.

(** The tool-use blocks of a response that carry a non-empty [text]. *)
Definition texted_tool_uses (response : Response) : nat :=
  length (List.filter (fun b => is_tool_use b && has_nonempty_text b) response).

(** The two calls of one pass through the [tool_use] branch. *)
Definition round_events (call : string * ToolArgs)
    (answer : CallToolResult * Request * Response) : list Event :=
  [EvCallTool call.1 call.2 (Returns answer.1.1);
   EvCreate answer.1.2 (Returns answer.2)].

(** What [final_text] holds after the loop ran to its end over the blocks of
    the first response, given the follow-up responses in order: the text of
    a text block; for a tool-use block the [Calling tool] marker and then
    the text of the first block of its follow-up response. *)
Fixpoint transcript (blocks : Response) (followups : list Response)
    : list string :=
  match blocks with
  | [] => []
  | TextBlock t :: rest => t :: transcript rest followups
  | ToolUseBlock n a _ :: rest =>
      match followups with
      | f :: fs =>
          calling_tool n a
            :: default EmptyString (head f ≫= block_text)
            :: transcript rest fs
      | [] => [calling_tool n a]
      end
  | OtherBlock _ :: rest => transcript rest followups
  end.

(** The run of [for_content], call by call: [loop_run blocks messages
    final_text evs res] says that the loop started on [blocks] with these
    values of its variables makes the calls [evs] and ends in [res]. *)
Inductive loop_run :
    list ContentBlock -> list Message -> list string ->
    list Event -> outcome (list Message * list string) -> Prop :=
| run_end messages final_text :
    loop_run [] messages final_text [] (Returns (messages, final_text))
| run_text text rest messages final_text evs res :
    loop_run rest messages (final_text ++ [text]) evs res ->
    loop_run (TextBlock text :: rest) messages final_text evs res
| run_other type rest messages final_text evs res :
    loop_run rest messages final_text evs res ->
    loop_run (OtherBlock type :: rest) messages final_text evs res
| run_no_session n a t rest messages final_text :
    loop_run (ToolUseBlock n a t :: rest) messages final_text
      [] (Raises AttributeError)
| run_tool_raises n a t rest messages final_text e :
    loop_run (ToolUseBlock n a t :: rest) messages final_text
      [EvCallTool n a (Raises e)] (Raises e)
| run_model_raises n a t rest messages final_text result e :
    loop_run (ToolUseBlock n a t :: rest) messages final_text
      [EvCallTool n a (Returns result);
       EvCreate (followup_request
                   (with_tool_result (ToolUseBlock n a t) result messages))
                (Raises e)]
      (Raises e)
| run_no_text n a t rest messages final_text result response e :
    first_text response = Raises e ->
    loop_run (ToolUseBlock n a t :: rest) messages final_text
      [EvCallTool n a (Returns result);
       EvCreate (followup_request
                   (with_tool_result (ToolUseBlock n a t) result messages))
                (Returns response)]
      (Raises e)
| run_tool n a t rest messages final_text result response text evs res :
    first_text response = Returns text ->
    loop_run rest (with_tool_result (ToolUseBlock n a t) result messages)
      ((final_text ++ [calling_tool n a]) ++ [text]) evs res ->
    loop_run (ToolUseBlock n a t :: rest) messages final_text
      (EvCallTool n a (Returns result)
       :: EvCreate (followup_request
                      (with_tool_result (ToolUseBlock n a t) result messages))
                   (Returns response)
       :: evs)
      res.

(** The run of [conversation], call by call. *)
Inductive query_run (query : string) :
    list Event -> outcome (list Message * list string) -> Prop :=
| query_no_session :
    query_run query [] (Raises AttributeError)
| query_list_tools_raises e :
    query_run query [EvListTools (Raises e)] (Raises e)
| query_model_raises tools e :
    query_run query
      [EvListTools (Returns tools);
       EvCreate (initial_request [{| role := user; content := Text query |}]
                                 (map tool_decl tools))
                (Raises e)]
      (Raises e)
| query_loop tools response evs res :
    loop_run response [{| role := user; content := Text query |}] [] evs res ->
    query_run query
      (EvListTools (Returns tools)
       :: EvCreate (initial_request [{| role := user; content := Text query |}]
                                    (map tool_decl tools))
                   (Returns response)
       :: evs)
      res.

End Observations.

(** ** The statements of the specification that the code does not meet

    Each is written down as the specification words it; it is then refuted
    on a run of the scripted world below, and the statement that does hold
    is proved for every world. *)

Section Claimed.

Context {P : Payloads}.
Variable W : World.

(** "Whenever any model response issued during the query (including
    follow-up responses after tool results) contains a tool-use block, a
    further model call is issued before the loop terminates." *)
Definition claimed_loop_until_no_tool_use (query : string) (st : State) : Prop :=
  forall pre req response post,
    during (process_query W query) st
      = pre ++ EvCreate req (Returns response) :: post ->
    existsb is_tool_use response = true ->
    requests post <> [].

(** "For every model response containing N tool-use blocks with N >= 1,
    exactly N additional model calls beyond the first, and the message
    history grows by exactly 2 messages per tool-use block processed." *)
Definition claimed_two_messages_per_tool_use (query : string) (st : State)
    : Prop :=
  forall listed req response evs history final_text,
    during (conversation W query) st
      = EvListTools (Returns listed) :: EvCreate req (Returns response) :: evs ->
    (conversation W query st).1 = Returns (history, final_text) ->
    1 <= length (tool_uses response) ->
    length (requests evs) = length (tool_uses response)
    /\ length history = 1 + 2 * length (tool_uses response).

(** "Every model API request issued during a query carries the tool
    declarations: the catalog is recomputed from listTools() for every
    model call." *)
Definition claimed_tools_on_every_call (query : string) (st : State) : Prop :=
  Forall (fun req => is_Some (tools req))
         (requests (during (process_query W query) st))
  /\ list_tools_calls (during (process_query W query) st)
      = length (requests (during (process_query W query) st)).

(** "The string returned equals exactly the text blocks seen across the
    whole exchange, in emission order, concatenated with newline
    separators, and nothing else." *)
Definition claimed_answer_is_all_texts (query : string) (st : State) : Prop :=
  forall answer,
    (process_query W query st).1 = Returns answer ->
    answer =
      String.concat newline
        (concat (map texts (responses (during (process_query W query) st)))).

End Claimed.

(** ** A scripted world

    A tool server without tools to list whose every tool call has the empty
    dictionary as arguments (rendered [{}] by [str()]) and answers with a
    list of strings, and a model that answers the successive calls from a
    script. *)

Module Scripted.

#[export] Instance payloads : Payloads := {|
  ToolArgs := unit;
  ToolContent := list string;
  Schema := unit;
  py_str := fun _ => "{}"
|}.

Definition world (script : list Response) : World := {|
  w_stdio_client := fun _ params => Returns (StdioTransport params);
  w_client_session := fun _ t => Returns (Session t);
  w_initialize := fun _ => Returns tt;
  w_list_tools := fun _ => Returns [];
  w_call_tool := fun _ name _ =>
    Returns {| result_content := ["result of " +:+ name] |};
  w_create := fun tr _ =>
    match script !! length (requests tr) with
    | Some response => Returns response
    | None => Raises (Failure "no response left in the script")
    end
|}.

(** A client connected to the server launched by [python server.py]. *)
Definition params : StdioServerParameters :=
  {| command := JStr "python"; args := JList [JStr "server.py"];
     env := JDict [] |}.

Definition connected : State := {|
  self := {| session := Some (Session (StdioTransport params));
             stdio_write := Some (StdioTransport params);
             exit_stack := [TransportContext (StdioTransport params);
                            SessionContext (Session (StdioTransport params))] |};
  trace := [];
  stdout := []
|}.

(** A fresh client, before [connect]. *)
Definition fresh : State := {| self := init; trace := []; stdout := [] |}.

(** The empty dictionary of arguments. *)
Definition no_args : ToolArgs := tt.

(** The model asks for one tool and, after its result, answers in two text
    blocks and asks for the tool again. *)
Definition asks_again_followup : Response :=
  [TextBlock "One row."; TextBlock "Checking.";
   ToolUseBlock "query" no_args None].

Definition asks_again : list Response :=
  [[ToolUseBlock "query" no_args None]; asks_again_followup].

(** The tool-use blocks carry a [text] of their own. *)
Definition texted_followup : Response :=
  [ToolUseBlock "query" no_args (Some "Again.")].

Definition texted : list Response :=
  [[TextBlock "Looking."; ToolUseBlock "query" no_args (Some "I will query.");
    TextBlock "Done."];
   texted_followup].

(** The model asks for two tools in its first response. *)
Definition two_tools : list Response :=
  [[ToolUseBlock "query" no_args None; ToolUseBlock "count" no_args None];
   [TextBlock "One row."]; [TextBlock "One."]].

(** The follow-up response starts with a tool-use block. *)
Definition tool_use_followup : list Response :=
  [[ToolUseBlock "query" no_args None];
   [ToolUseBlock "query" no_args None; TextBlock "One row."]].

(** No tool is asked for. *)
Definition plain : list Response :=
  [[TextBlock "Hello"; OtherBlock "thinking"; TextBlock "world"]].

(** The follow-up response is empty. *)
Definition empty_followup : list Response :=
  [[ToolUseBlock "query" no_args None]; []].

Definition question : string := "How many rows?".

(** The calls made while the connected client processes [question] against
    a script. *)
Definition calls (script : list Response) : list Event :=
  during (process_query (world script) question) connected.

(** The result of the one tool of the server, and the history sent with the
    call that follows it when the tool-use block carries no text. *)
Definition query_result : CallToolResult :=
  {| result_content := ["result of query"] |}.

Definition history_after_query : list Message :=
  [{| role := user; content := Text question |};
   {| role := user; content := ToolPayload ["result of query"] |}].

(** The same when the tool-use block carries the text of [texted]. *)
Definition history_after_texted_query : list Message :=
  [{| role := user; content := Text question |};
   {| role := assistant; content := Text "I will query." |};
   {| role := user; content := ToolPayload ["result of query"] |}].

End Scripted.

(** ** The interactive shell: [chat_loop], [cleanup] and [main]

    The shell adds the terminal to the collaborators: the lines typed by the
    user, everything printed (the prints of the client among the prints of
    the shell, in order) and the contexts that the exit stack has exited.
    [chat_loop] is a [while True] loop, so it is given fuel: one unit per
    pass, and [None] when the fuel runs out before the loop is left. *)

(** Python's [str.strip] and [str.lower]. *)
Class PyStr : Type := {
  strip : string -> string;
  lower : string -> string
}.

(** What [open(args.config)] followed by [json.load] comes to. *)
Inductive ConfigFile : Type :=
| FileNotFoundError
| JSONDecodeError
| OtherError (e : Exception)
| Loaded (config : JValue).

(** How [main] ends: by returning, at a [sys.exit], on the name [sys]
    itself (the module binds it only under [if __name__ == "__main__"]), or
    on an exception that nothing catches. *)
Inductive MainEnd : Type :=
| Completed
| SystemExit (code : Z)
| NameError (name : string)
| Uncaught (e : Exception).

(** [argparse]'s namespace: [args.config] and [args.server]. *)
Record Namespace : Type := {
  arg_config : string;
  arg_server : string
}.

(** The dictionary that [json.load] builds from the members of an object,
    in order: a later member replaces an earlier one of the same name. *)
Definition as_dict (d : list (string * JValue)) : gmap string JValue :=
  foldl (fun m kv => <[kv.1 := kv.2]> m) ∅ d.

(** [value.get(key, dflt)] on a loaded JSON value: only a dictionary has the
    method. *)
Definition json_get (value : JValue) (key : string) (dflt : JValue)
    : outcome JValue :=
  match value with
  | JDict d => Returns (dict_get_default (as_dict d) key dflt)
  | _ => Raises AttributeError
  end.

Section Shell.

Context {P : Payloads} {Str : PyStr}.

(** One [print] of the program, or the prompt of [input]. *)
Inductive Output : Type :=
| ClientPrinted (p : Printed)
| PrintStarted
| PrintHelp
| Prompt
| PrintResponse (response : string)
| PrintError (e : Exception)
| PrintConfigNotFound (path : string)
| PrintConfigNotJson (path : string)
| PrintServerNotFound (server : string).

(** The collaborators of the shell: the configuration file, whether the
    name [sys] is bound where [main] runs, the constructor [Anthropic()]
    (it raises without credentials), and the exit of a context of the exit
    stack, which sees the calls made and the contexts exited so far. *)
Record Host : Type := {
  h_load : string -> ConfigFile;
  h_sys_bound : bool;
  h_anthropic : outcome unit;
  h_exit : list Event -> list Resource -> Resource -> outcome unit
}.

Record Terminal : Type := {
  state : State;
  stdin : list string;
  console : list Output;
  released : list Resource
}.

Variable W : World.
Variable host : Host.

Definition say (o : Output) (t : Terminal) : Terminal :=
  {| state := state t; stdin := stdin t; console := console t ++ [o];
     released := released t |}.

(** A coroutine of the client run at the terminal: what it prints goes to
    the console. *)
Definition run {A} (m : M A) (t : Terminal) : outcome A * Terminal :=
  let r := m (state t) in
  (r.1,
   {| state := r.2; stdin := stdin t;
      console := console t
                 ++ map ClientPrinted
                        (drop (length (stdout (state t))) (stdout r.2));
      released := released t |}).

(** [input(prompt)]: the next line, or [EOFError] at the end of the
    input. *)
Definition input (t : Terminal) : outcome string * Terminal :=
  match stdin t with
  | [] => (Raises (Failure "EOF when reading a line"), say Prompt t)
  | line :: rest =>
      (Returns line,
       {| state := state t; stdin := rest; console := console t ++ [Prompt];
          released := released t |})
  end.

(** The [while True] loop of [chat_loop].  Each pass is a [try] whose
    [except Exception] reports the exception and goes on with the next
    pass. *)
Fixpoint while_true (fuel : nat) (t : Terminal) : option Terminal :=
  match fuel with
  | 0 => None
  | S fuel =>
      match input t with
      | (Raises e, t) => while_true fuel (say (PrintError e) t)
      | (Returns line, t) =>
          let query := strip line in
          if String.eqb (lower query) "quit" then Some t
          else
            match run (process_query W query) t with
            | (Returns response, t) =>
                while_true fuel (say (PrintResponse response) t)
            | (Raises e, t) => while_true fuel (say (PrintError e) t)
            end
      end
  end.

(** [MCPClient.chat_loop]. *)
Definition chat_loop (fuel : nat) (t : Terminal) : option Terminal :=
  while_true fuel (say PrintHelp (say PrintStarted t)).

Definition set_exit_stack (stack : list Resource) (t : Terminal) : Terminal :=
  {| state :=
       {| self := {| session := session (self (state t));
                     stdio_write := stdio_write (self (state t));
                     exit_stack := stack |};
          trace := trace (state t);
          stdout := stdout (state t) |};
     stdin := stdin t; console := console t; released := released t |}.

(** [AsyncExitStack.aclose]: the contexts are popped and exited last in,
    first out; an exception raised by an exit does not stop the unwinding,
    and the last one raised is raised at the end.  [above] holds the
    contexts still on the stack, the top first. *)
Fixpoint aclose (above : list Resource) (pending : option Exception)
    (t : Terminal) : outcome unit * Terminal :=
  match above with
  | [] =>
      (match pending with Some e => Raises e | None => Returns tt end, t)
  | r :: below =>
      let t := set_exit_stack (reverse below) t in
      let o := h_exit host (trace (state t)) (released t) r in
      let t := {| state := state t; stdin := stdin t; console := console t;
                  released := released t ++ [r] |} in
      aclose below (match o with Raises e => Some e | Returns _ => pending end) t
  end.

(** [MCPClient.cleanup]. *)
Definition cleanup (t : Terminal) : outcome unit * Terminal :=
  aclose (reverse (exit_stack (self (state t)))) None t.

(** [sys.exit(code)] where [main] runs. *)
Definition sys_exit (code : Z) : MainEnd :=
  if h_sys_bound host then SystemExit code else NameError "sys".

(** [MCPClient()]: the attributes of [init], once [Anthropic()] has built
    the API client. *)
Definition new_client (t : Terminal) : outcome unit * Terminal :=
  match h_anthropic host with
  | Returns _ =>
      (Returns tt,
       {| state := {| self := init; trace := trace (state t);
                      stdout := stdout (state t) |};
          stdin := stdin t; console := console t; released := released t |})
  | Raises e => (Raises e, t)
  end.

(** [await client.connect(server_config)] on a loaded JSON value:
    [server_config.get] exists on a dictionary only. *)
Definition connect_json (server_config : JValue) (t : Terminal)
    : outcome unit * Terminal :=
  match server_config with
  | JDict d => run (connect W (as_dict d)) t
  | _ => (Raises AttributeError, t)
  end.

(** The [finally] clause of [main]: [cleanup] runs, and an exception of its
    own replaces the way the [try] block ended. *)
Definition finally_cleanup (ending : MainEnd) (t : Terminal)
    : MainEnd * Terminal :=
  match cleanup t with
  | (Returns _, t) => (ending, t)
  | (Raises e, t) => (Uncaught e, t)
  end.

(** [main], from the parsed command line on. *)
Definition main (args : Namespace) (fuel : nat) (t : Terminal)
    : option (MainEnd * Terminal) :=
  match h_load host (arg_config args) with
  | FileNotFoundError =>
      Some (sys_exit 1, say (PrintConfigNotFound (arg_config args)) t)
  | JSONDecodeError =>
      Some (sys_exit 1, say (PrintConfigNotJson (arg_config args)) t)
  | OtherError e => Some (Uncaught e, t)
  | Loaded config =>
      match json_get config "mcpServers" (JDict []) with
      | Raises e => Some (Uncaught e, t)
      | Returns servers =>
          match json_get servers (arg_server args) JNull with
          | Raises e => Some (Uncaught e, t)
          | Returns server_config =>
              if negb (truthy server_config) then
                Some (sys_exit 1, say (PrintServerNotFound (arg_server args)) t)
              else
                match new_client t with
                | (Raises e, t) => Some (Uncaught e, t)
                | (Returns _, t) =>
                    match connect_json server_config t with
                    | (Raises e, t) => Some (finally_cleanup (Uncaught e) t)
                    | (Returns _, t) =>
                        match chat_loop fuel t with
                        | None => None
                        | Some t => Some (finally_cleanup Completed t)
                        end
                    end
                end
          end
      end
  end.

(** The contexts entered among [evs], in order. *)
Definition acquired (evs : list Event) : list Resource :=
  omap (fun ev =>
          match ev with
          | EvStdioClient _ (Returns t) => Some (TransportContext t)
          | EvClientSession _ (Returns s) => Some (SessionContext s)
          | _ => None
          end) evs.

(** The exception a call among the collaborators ended with, if any. *)
Definition raised (ev : Event) : option Exception :=
  match ev with
  | EvStdioClient _ (Raises e) | EvClientSession _ (Raises e)
  | EvInitialize (Raises e) | EvListTools (Raises e)
  | EvCallTool _ _ (Raises e) | EvCreate _ (Raises e) => Some e
  | _ => None
  end.

(** [StdioServerParameters] as [connect] builds them from a
    configuration. *)
Definition server_parameters (server_config : gmap string JValue)
    : StdioServerParameters :=
  {| command := dict_get server_config "command";
     args := dict_get_default server_config "args" (JList []);
     env := dict_get_default server_config "env" (JDict []) |}.

(** The sessions that [ClientSession] gave among [evs], in order. *)
Definition sessions_entered (evs : list Event) : list ClientSession :=
  omap (fun ev =>
          match ev with EvClientSession _ (Returns s) => Some s | _ => None end)
       evs.

(** The run of [connect] on a configuration with a command, call by call:
    the calls made, how it ends, the client it leaves and what it
    prints. *)
Inductive connect_run (params : StdioServerParameters) (c : MCPClient) :
    list Event -> outcome unit -> MCPClient -> list Printed -> Prop :=
| connect_no_transport e :
    connect_run params c [EvStdioClient params (Raises e)] (Raises e) c []
| connect_no_session t e :
    connect_run params c
      [EvStdioClient params (Returns t); EvClientSession t (Raises e)]
      (Raises e)
      (set_stdio_write t (push_exit_stack (TransportContext t) c)) []
| connect_no_initialize t s e :
    connect_run params c
      [EvStdioClient params (Returns t); EvClientSession t (Returns s);
       EvInitialize (Raises e)]
      (Raises e)
      (set_session s
         (push_exit_stack (SessionContext s)
            (set_stdio_write t (push_exit_stack (TransportContext t) c))))
      []
| connect_no_tools t s e :
    connect_run params c
      [EvStdioClient params (Returns t); EvClientSession t (Returns s);
       EvInitialize (Returns tt); EvListTools (Raises e)]
      (Raises e)
      (set_session s
         (push_exit_stack (SessionContext s)
            (set_stdio_write t (push_exit_stack (TransportContext t) c))))
      []
| connect_done t s tools :
    connect_run params c
      [EvStdioClient params (Returns t); EvClientSession t (Returns s);
       EvInitialize (Returns tt); EvListTools (Returns tools)]
      (Returns tt)
      (set_session s
         (push_exit_stack (SessionContext s)
            (set_stdio_write t (push_exit_stack (TransportContext t) c))))
      [PrintConnected (map tool_name tools)]
| connect_invalid :
    valid_parameters params = false ->
    connect_run params c [] (Raises (Failure "ValidationError")) c [].

(** The line ends the chat. *)
Definition is_quit (line : string) : bool :=
  String.eqb (lower (strip line)) "quit".

(** The state of the client after the queries typed on [lines], one after
    the other. *)
Definition after_queries (lines : list string) (st : State) : State :=
  foldl (fun st line => (process_query W (strip line) st).2) st lines.

(** The report printed for each query typed on [lines], one after the
    other: its answer, or the exception it ended with. *)
Fixpoint reports (lines : list string) (st : State) : list Output :=
  match lines with
  | [] => []
  | line :: rest =>
      let r := process_query W (strip line) st in
      match r.1 with
      | Returns response => PrintResponse response
      | Raises e => PrintError e
      end :: reports rest r.2
  end.

(** The reports among what was printed. *)
Definition reported (printed : list Output) : list Output :=
  List.filter (fun o =>
                 match o with
                 | PrintResponse _ | PrintError _ => true
                 | _ => false
                 end) printed.

End Shell.

(** ** A scripted terminal

    The user types ASCII text; the configuration file [servers.json] names
    one server, [db]; the name [sys] is bound, the API client can be built
    and every context exits without an exception. *)

Module Keyboard.

Import Scripted.

(** ASCII whitespace, as [str.strip] sees it. *)
Definition is_space (c : Ascii.ascii) : bool :=
  let n := Ascii.nat_of_ascii c in
  Nat.eqb n 32 || (Nat.leb 9 n && Nat.leb n 13) || (Nat.leb 28 n && Nat.leb n 31).

Fixpoint lstrip (s : list Ascii.ascii) : list Ascii.ascii :=
  match s with
  | c :: rest => if is_space c then lstrip rest else s
  | [] => []
  end.

Definition ascii_strip (s : string) : string :=
  String.string_of_list_ascii
    (rev (lstrip (rev (lstrip (String.list_ascii_of_string s))))).

Definition lower_ascii (c : Ascii.ascii) : Ascii.ascii :=
  let n := Ascii.nat_of_ascii c in
  if Nat.leb 65 n && Nat.leb n 90 then Ascii.ascii_of_nat (n + 32) else c.

Definition ascii_lower (s : string) : string :=
  String.string_of_list_ascii (map lower_ascii (String.list_ascii_of_string s)).

#[export] Instance ascii_text : PyStr := {|
  strip := ascii_strip;
  lower := ascii_lower
|}.

Definition servers_json : JValue :=
  JDict [("mcpServers",
          JDict [("db", JDict [("command", JStr "python");
                               ("args", JList [JStr "server.py"])])])].

Definition host : Host := {|
  h_load := fun path =>
    if String.eqb path "servers.json" then Loaded servers_json
    else FileNotFoundError;
  h_sys_bound := true;
  h_anthropic := Returns tt;
  h_exit := fun _ _ _ => Returns tt
|}.

(** The connected client of the scripted world with [lines] to read. *)
Definition typing (lines : list string) : Terminal :=
  {| state := connected; stdin := lines; console := []; released := [] |}.

(** A terminal at which nothing has happened yet, with [lines] to read. *)
Definition starting (lines : list string) : Terminal :=
  {| state := fresh; stdin := lines; console := []; released := [] |}.

Definition command_line : Namespace :=
  {| arg_config := "servers.json"; arg_server := "db" |}.

(** A configuration with a command only, and one whose command is the empty
    string. *)
Definition command_only : gmap string JValue :=
  {["command" := JStr "python"]}.

Definition empty_command : gmap string JValue :=
  {["command" := JStr EmptyString]}.

(** How [main] ends on [servers.json] and the server [db] when the user
    types one query and then [quit], and the terminal it leaves. *)
Definition db_session : MainEnd * Terminal :=
  Eval vm_compute in
    default (Completed, starting [])
            (main (world plain) host command_line 2
                  (starting ["hello"; "quit"])).

(** The model answers once and asks for a tool; the script has no
    follow-up response, so the second model call raises. *)
Definition no_followup : list Response :=
  [[ToolUseBlock "query" no_args None]].

End Keyboard.

(** ** The runs of the loop and of a query *)

Section Runs.

Context {P : Payloads}.
Variable W : World.

Lemma for_content_run blocks :
  forall messages final_text st res st',
    for_content W blocks messages final_text st = (res, st') ->
    exists evs,
      trace st' = trace st ++ evs
      /\ self st' = self st
      /\ loop_run blocks messages final_text evs res.
Proof.
  induction blocks as [|content rest IH]; intros messages final_text st res st' H.
  - inversion H; subst. exists []. rewrite app_nil_r.
    repeat split. constructor.
  - destruct content as [text|n a t|ty]; cbn [for_content] in H.
    + unfold bind, print in H.
      apply IH in H as (evs & Htr & Hself & Hrun).
      exists evs. repeat split; [exact Htr | exact Hself |].
      constructor. exact Hrun.
    + unfold bind, print, session_call_tool, messages_create, call, lift,
        self_session, bind in H.
      cbn [self trace stdout] in H.
      destruct (session (self st)) as [s|] eqn:Hs.
      2:{ inversion H; subst. exists []. cbn [trace self].
          rewrite app_nil_r. repeat split. constructor. }
      cbn [self trace stdout] in H.
      destruct (w_call_tool W (trace st) n a) as [result|e] eqn:Hcall.
      2:{ inversion H; subst. eexists [_]. cbn [trace self].
          repeat split. constructor. }
      match type of H with context [w_create W ?tr ?req] =>
        destruct (w_create W tr req) as [response|e] eqn:Hcreate end.
      2:{ inversion H; subst. eexists [_; _]. cbn [trace self].
          rewrite <- app_assoc. repeat split. constructor. }
      destruct (first_text response) as [text|e] eqn:Hfirst.
      2:{ inversion H; subst. eexists [_; _]. cbn [trace self].
          rewrite <- app_assoc. repeat split. constructor. exact Hfirst. }
      apply IH in H as (evs & Htr & Hself & Hrun).
      cbn [trace self] in Htr, Hself.
      eexists (_ :: _ :: evs). repeat split.
      * rewrite Htr, <- !app_assoc. reflexivity.
      * exact Hself.
      * econstructor; eassumption.
    + apply IH in H as (evs & Htr & Hself & Hrun).
      exists evs. repeat split; [exact Htr | exact Hself |].
      constructor. exact Hrun.
Qed.

Lemma conversation_run query st :
  exists evs,
    trace (conversation W query st).2 = trace st ++ evs
    /\ self (conversation W query st).2 = self st
    /\ query_run query evs (conversation W query st).1.
Proof.
  destruct (conversation W query st) as [res st'] eqn:H. cbn [fst snd].
  unfold conversation, bind, session_list_tools, messages_create, call,
    self_session, bind in H.
  cbn [self trace stdout] in H.
  destruct (session (self st)) as [s|] eqn:Hs.
  2:{ inversion H; subst. exists []. rewrite app_nil_r.
      repeat split. constructor. }
  cbn [self trace stdout] in H.
  destruct (w_list_tools W (trace st)) as [tools|e] eqn:Hlist.
  2:{ inversion H; subst. eexists [_]. cbn [trace self].
      repeat split. constructor. }
  match type of H with context [w_create W ?tr ?req] =>
    destruct (w_create W tr req) as [response|e] eqn:Hcreate end.
  2:{ inversion H; subst. eexists [_; _]. cbn [trace self].
      rewrite <- app_assoc. repeat split. constructor. }
  apply for_content_run in H as (evs & Htr & Hself & Hrun).
  cbn [trace self] in Htr, Hself.
  eexists (_ :: _ :: evs). repeat split.
  - rewrite Htr, <- !app_assoc. reflexivity.
  - exact Hself.
  - constructor. exact Hrun.
Qed.

(** [process_query] makes the calls of [conversation] and joins what it
    returns. *)
Lemma process_query_conversation query st :
  process_query W query st =
    (match (conversation W query st).1 with
     | Returns r => Returns (String.concat newline r.2)
     | Raises e => Raises e
     end,
     (conversation W query st).2).
Proof.
  unfold process_query, bind.
  destruct (conversation W query st) as [[r|e] st']; reflexivity.
Qed.

Lemma during_conversation query st :
  during (process_query W query) st = during (conversation W query) st.
Proof. unfold during. rewrite process_query_conversation. reflexivity. Qed.

(** Every run of [process_query] is a [query_run]. *)
Lemma process_query_run query st :
  exists res,
    query_run query (during (process_query W query) st) res
    /\ (process_query W query st).1 =
         match res with
         | Returns r => Returns (String.concat newline r.2)
         | Raises e => Raises e
         end
    /\ (conversation W query st).1 = res.
Proof.
  destruct (conversation_run query st) as (evs & Htr & _ & Hrun).
  exists (conversation W query st).1. repeat split.
  - rewrite during_conversation. unfold during.
    rewrite Htr, drop_app_length. exact Hrun.
  - rewrite process_query_conversation. reflexivity.
Qed.

End Runs.

(** ** Facts about the loop, by induction on its runs *)

(** Splitting a list of calls, known up to its first two calls, around one
    of its calls. *)
Ltac split_calls pre H :=
  destruct pre as [|? [|? pre]]; cbn in H; simplify_eq;
  try (destruct pre; discriminate).

Section Loop.

Context {P : Payloads}.

(** Inside the loop every model call is a follow-up call, and the tool
    catalog is not asked for. *)
Lemma loop_requests blocks messages final_text evs res :
  loop_run blocks messages final_text evs res ->
  Forall (fun req => exists history, req = followup_request history)
         (requests evs)
  /\ list_tools_calls evs = 0.
Proof.
  induction 1; cbn; repeat constructor; try tauto; eauto.
Qed.

(** Without a tool-use block the loop makes no call and collects the
    texts. *)
Lemma loop_without_tool_use blocks messages final_text evs res :
  loop_run blocks messages final_text evs res ->
  tool_uses blocks = [] ->
  evs = [] /\ res = Returns (messages, final_text ++ texts blocks).
Proof.
  induction 1 as [m f|t rest m f evs res _ IH|ty rest m f evs res _ IH
                 | | | | |]; intros Hnone; try discriminate.
  - cbn. rewrite app_nil_r. split; reflexivity.
  - destruct (IH Hnone) as [-> ->]. cbn. rewrite <- app_assoc. split; reflexivity.
  - destruct (IH Hnone) as [-> ->]. split; reflexivity.
Qed.

(** A loop that runs to its end makes, for each tool-use block in order,
    the tool invocation and one model call; it makes no other call. *)
Lemma loop_rounds blocks messages final_text evs res :
  loop_run blocks messages final_text evs res ->
  forall r, res = Returns r ->
  exists rounds,
    evs = concat (zip_with round_events (tool_uses blocks) rounds)
    /\ length rounds = length (tool_uses blocks).
Proof.
  induction 1 as [m f|t rest m f evs res _ IH|ty rest m f evs res _ IH
                 | | | |
                 |n a t rest m f result response text evs res Hfirst _ IH];
    intros r Hr; try discriminate.
  - exists []. split; reflexivity.
  - exact (IH r Hr).
  - exact (IH r Hr).
  - destruct (IH r Hr) as (rounds & -> & Hlen).
    exists ((result,
             followup_request (with_tool_result (ToolUseBlock n a t) result m),
             response) :: rounds).
    cbn. rewrite Hlen. split; reflexivity.
Qed.

Lemma length_with_tool_result b result (messages : list Message) :
  length (with_tool_result b result messages)
    = length messages + 1 + (if has_nonempty_text b then 1 else 0).
Proof.
  unfold with_tool_result.
  destruct (has_nonempty_text b); rewrite !length_app; cbn; lia.
Qed.

(** The history of a loop that runs to its end: one message per tool-use
    block, and one more for those that carry a non-empty text. *)
Lemma loop_history blocks messages final_text evs res :
  loop_run blocks messages final_text evs res ->
  forall history final, res = Returns (history, final) ->
  length (requests evs) = length (tool_uses blocks)
  /\ length history
     = length messages + length (tool_uses blocks) + texted_tool_uses blocks.
Proof.
  induction 1 as [m f|t rest m f evs res _ IH|ty rest m f evs res _ IH
                 | | | |
                 |n a t rest m f result response text evs res Hfirst _ IH];
    intros history final Hr; try discriminate.
  - inversion Hr; subst. cbn. split; lia.
  - exact (IH _ _ Hr).
  - exact (IH _ _ Hr).
  - destruct (IH _ _ Hr) as [Hcalls Hlen].
    rewrite length_with_tool_result in Hlen.
    unfold texted_tool_uses, requests, tool_uses in *. cbn.
    destruct (has_nonempty_text (ToolUseBlock n a t)); cbn; split; lia.
Qed.

Lemma first_text_returns response text :
  first_text response = Returns text ->
  default EmptyString (head response ≫= block_text) = text.
Proof.
  destruct response as [|b rest]; cbn; [discriminate|].
  destruct (block_text b); cbn; congruence.
Qed.

Lemma first_text_raises response :
  head response ≫= block_text = None ->
  first_text response
    = Raises (match response with [] => IndexError | _ :: _ => AttributeError end).
Proof.
  destruct response as [|b rest]; cbn; [reflexivity|].
  destruct (block_text b); cbn; [discriminate|reflexivity].
Qed.

(** What a loop that runs to its end has collected in [final_text]. *)
Lemma loop_transcript blocks messages final_text evs res :
  loop_run blocks messages final_text evs res ->
  forall history final, res = Returns (history, final) ->
  final = final_text ++ transcript blocks (responses evs).
Proof.
  induction 1 as [m f|t rest m f evs res _ IH|ty rest m f evs res _ IH
                 | | | |
                 |n a t rest m f result response text evs res Hfirst _ IH];
    intros history final Hr; try discriminate.
  - inversion Hr; subst. cbn. rewrite app_nil_r. reflexivity.
  - rewrite (IH _ _ Hr), <- app_assoc. reflexivity.
  - exact (IH _ _ Hr).
  - rewrite (IH _ _ Hr), <- !app_assoc. cbn.
    rewrite (first_text_returns _ _ Hfirst). reflexivity.
Qed.

Lemma tool_results_with_tool_result b result (messages : list Message) :
  tool_results (with_tool_result b result messages)
    = tool_results messages ++ [result_content result].
Proof.
  unfold with_tool_result, tool_results.
  destruct (has_nonempty_text b); rewrite !omap_app; cbn;
    rewrite ?app_nil_r; reflexivity.
Qed.

Lemma last_with_tool_result b result (messages : list Message) :
  last (with_tool_result b result messages)
    = Some {| role := user; content := ToolPayload (result_content result) |}.
Proof. unfold with_tool_result. apply last_snoc. Qed.

(** At every model call of the loop, the history sent holds, after what the
    loop started with, the results of the tool invocations made so far: one
    message each, in order, and none of those invocations raised. *)
Lemma loop_answers blocks history final_text evs res :
  loop_run blocks history final_text evs res ->
  forall pre req r post,
    evs = pre ++ EvCreate req r :: post ->
    map Some (tool_results (messages req))
      = map Some (tool_results history) ++ tool_answers pre.
Proof.
  induction 1 as [m f|t rest m f evs res _ IH|ty rest m f evs res _ IH
                 |n a t rest m f|n a t rest m f e
                 |n a t rest m f result e
                 |n a t rest m f result response e Hfirst
                 |n a t rest m f result response text evs res Hfirst _ IH];
    intros pre req r post Hev; eauto.
  - destruct pre; discriminate.
  - destruct pre; discriminate.
  - split_calls pre Hev.
  - split_calls pre Hev.
    cbn [messages followup_request].
    rewrite tool_results_with_tool_result, map_app. reflexivity.
  - split_calls pre Hev.
    cbn [messages followup_request].
    rewrite tool_results_with_tool_result, map_app. reflexivity.
  - split_calls pre Hev.
    + cbn [messages followup_request].
      rewrite tool_results_with_tool_result, map_app. reflexivity.
    + rewrite (IH _ _ _ _ eq_refl), tool_results_with_tool_result, map_app,
        <- app_assoc.
      reflexivity.
Qed.

(** The tool invocations of the loop are made for the tool-use blocks it
    was started on, one each and in their order, up to where the loop
    stopped. *)
Lemma loop_calls blocks messages final_text evs res :
  loop_run blocks messages final_text evs res ->
  tool_calls evs `prefix_of` tool_uses blocks.
Proof.
  induction 1; cbn; try assumption;
    try apply prefix_nil; try (apply prefix_cons; apply prefix_nil).
  apply prefix_cons. assumption.
Qed.

Lemma tool_calls_app (pre post : list Event) :
  tool_calls (pre ++ post) = tool_calls pre ++ tool_calls post.
Proof. apply omap_app. Qed.

(** In the loop, a tool invocation that returned is followed at once by a
    model call whose history ends with the result of the invocation. *)
Lemma loop_roundtrip blocks history final_text evs res :
  loop_run blocks history final_text evs res ->
  forall pre n a result post,
    evs = pre ++ EvCallTool n a (Returns result) :: post ->
    exists req r post',
      post = EvCreate req r :: post'
      /\ last (messages req)
         = Some {| role := user; content := ToolPayload (result_content result) |}.
Proof.
  induction 1 as [m f|t rest m f evs res _ IH|ty rest m f evs res _ IH
                 |n a t rest m f|n a t rest m f e
                 |n a t rest m f result e
                 |n a t rest m f result response e Hfirst
                 |n a t rest m f result response text evs res Hfirst _ IH];
    intros pre n' a' result' post Hev; eauto.
  - destruct pre; discriminate.
  - destruct pre; discriminate.
  - split_calls pre Hev.
  - split_calls pre Hev.
    eexists _, _, _. split; [reflexivity|]. apply last_with_tool_result.
  - split_calls pre Hev.
    eexists _, _, _. split; [reflexivity|]. apply last_with_tool_result.
  - split_calls pre Hev.
    + eexists _, _, _. split; [reflexivity|]. apply last_with_tool_result.
    + exact (IH _ _ _ _ _ eq_refl).
Qed.

(** In the loop, a follow-up response whose first block has no [text] to
    read (or that has no block at all) ends the loop with the exception of
    that access, and no further call is made. *)
Lemma loop_unguarded blocks messages final_text evs res :
  loop_run blocks messages final_text evs res ->
  forall pre n a o req response post,
    evs = pre ++ EvCallTool n a o :: EvCreate req (Returns response) :: post ->
    head response ≫= block_text = None ->
    res = Raises (match response with [] => IndexError | _ :: _ => AttributeError end)
    /\ post = [].
Proof.
  induction 1 as [m f|t rest m f evs res _ IH|ty rest m f evs res _ IH
                 |n a t rest m f|n a t rest m f e
                 |n a t rest m f result e
                 |n a t rest m f result response e Hfirst
                 |n a t rest m f result response text evs res Hfirst _ IH];
    intros pre n' a' o req' response' post Hev Hnone; eauto.
  - destruct pre; discriminate.
  - destruct pre; discriminate.
  - split_calls pre Hev.
  - split_calls pre Hev.
  - split_calls pre Hev.
    rewrite (first_text_raises _ Hnone) in Hfirst. simplify_eq.
    split; reflexivity.
  - split_calls pre Hev.
    + rewrite (first_text_raises _ Hnone) in Hfirst. discriminate.
    + exact (IH _ _ _ _ _ _ _ eq_refl Hnone).
Qed.

End Loop.

(** ** Every tool-use block that the loop comes to is invoked *)

Section Progress.

Context {P : Payloads}.
Variable W : World.

(** At a model call of the loop, the invocations made so far are those of
    the first tool-use blocks the loop was started on, one more than the
    model calls the loop has made. *)
Lemma loop_invocations blocks history final_text evs res :
  loop_run blocks history final_text evs res ->
  forall pre req r post,
    evs = pre ++ EvCreate req r :: post ->
    tool_calls pre = take (S (length (requests pre))) (tool_uses blocks).
Proof.
  induction 1 as [m f|t rest m f evs res _ IH|ty rest m f evs res _ IH
                 |n a t rest m f|n a t rest m f e
                 |n a t rest m f result e
                 |n a t rest m f result response e Hfirst
                 |n a t rest m f result response text evs res Hfirst _ IH];
    intros pre req r post Hev; eauto.
  - destruct pre; discriminate.
  - destruct pre; discriminate.
  - split_calls pre Hev.
  - split_calls pre Hev. cbn. rewrite take_0. reflexivity.
  - split_calls pre Hev. cbn. rewrite take_0. reflexivity.
  - split_calls pre Hev.
    + cbn. rewrite take_0. reflexivity.
    + cbn. f_equal. exact (IH _ _ _ _ eq_refl).
Qed.

Lemma first_text_unreadable response e :
  first_text response = Raises e ->
  head response ≫= block_text = None.
Proof.
  destruct response as [|b rest]; cbn; [reflexivity|].
  destruct (block_text b); cbn; [discriminate|reflexivity].
Qed.

(** With a session, the loop invokes the tool of the first tool-use block
    it is started on before any other call, and after a model call whose
    response it could read it invokes the tool of the next tool-use block,
    if one is left. *)
Lemma for_content_invokes blocks :
  forall messages final_text st s res st',
    session (self st) = Some s ->
    for_content W blocks messages final_text st = (res, st') ->
    exists evs,
      trace st' = trace st ++ evs
      /\ (forall n a,
            tool_uses blocks !! 0 = Some (n, a) ->
            exists o rest, evs = EvCallTool n a o :: rest)
      /\ (forall pre req response post n a,
            evs = pre ++ EvCreate req (Returns response) :: post ->
            head response ≫= block_text <> None ->
            tool_uses blocks !! length (tool_calls pre) = Some (n, a) ->
            exists o post', post = EvCallTool n a o :: post').
Proof.
  induction blocks as [|content rest IH];
    intros messages final_text st s res st' Hs Hrun.
  - inversion Hrun; subst. exists []. rewrite app_nil_r.
    repeat split; [discriminate|].
    intros pre * Hev. destruct pre; discriminate.
  - destruct content as [text|n a t|ty]; cbn [for_content] in Hrun.
    + unfold bind, print in Hrun.
      refine (IH _ _ _ s _ _ _ Hrun). exact Hs.
    + unfold bind, print, session_call_tool, messages_create, call, lift,
        self_session, bind in Hrun.
      cbn [self trace stdout] in Hrun. rewrite Hs in Hrun.
      cbn [self trace stdout] in Hrun.
      destruct (w_call_tool W (trace st) n a) as [result|e] eqn:Hcall.
      2:{ inversion Hrun; subst. eexists [_]. cbn [trace].
          repeat split.
          - intros n' a' Hfirst. cbn in Hfirst. simplify_eq.
            eexists _, _. reflexivity.
          - intros pre * Hev. split_calls pre Hev. }
      match type of Hrun with context [w_create W ?tr ?req] =>
        destruct (w_create W tr req) as [response|e] eqn:Hcreate end.
      2:{ inversion Hrun; subst. eexists [_; _]. cbn [trace].
          rewrite <- app_assoc. repeat split.
          - intros n' a' Hfirst. cbn in Hfirst. simplify_eq.
            eexists _, _. reflexivity.
          - intros pre * Hev. split_calls pre Hev. }
      destruct (first_text response) as [text|e] eqn:Hfirst.
      2:{ inversion Hrun; subst. eexists [_; _]. cbn [trace].
          rewrite <- app_assoc. repeat split.
          - intros n' a' Hblock. cbn in Hblock. simplify_eq.
            eexists _, _. reflexivity.
          - intros pre * Hev Hreadable. split_calls pre Hev.
            apply first_text_unreadable in Hfirst. contradiction. }
      apply (IH _ _ _ s) in Hrun as (evs & Htr & Hnext & Hlater); [|exact Hs].
      cbn [trace] in Htr. eexists (_ :: _ :: evs). repeat split.
      * rewrite Htr, <- !app_assoc. reflexivity.
      * intros n' a' Hblock. cbn in Hblock. simplify_eq.
        eexists _, _. reflexivity.
      * intros pre req' response' post n' a' Hev Hreadable Hblock.
        split_calls pre Hev.
        -- cbn in Hblock. exact (Hnext _ _ Hblock).
        -- cbn in Hblock. exact (Hlater _ _ _ _ _ _ eq_refl Hreadable Hblock).
    + exact (IH _ _ _ s _ _ Hs Hrun).
Qed.

(** The same for a whole query: after the first model call, and after every
    follow-up call whose response could be read, the tool of the next
    tool-use block of the first response is invoked, if one is left. *)
Lemma conversation_invokes query st pre req response post n a :
  during (conversation W query) st
    = pre ++ EvCreate req (Returns response) :: post ->
  requests pre = [] \/ head response ≫= block_text <> None ->
  concat (map tool_uses
              (take 1 (responses (during (conversation W query) st))))
    !! length (tool_calls pre) = Some (n, a) ->
  exists o post', post = EvCallTool n a o :: post'.
Proof.
  unfold during.
  destruct (conversation W query st) as [res st'] eqn:Hrun. cbn [snd].
  unfold conversation, bind, session_list_tools, messages_create, call,
    self_session, bind in Hrun.
  cbn [self trace stdout] in Hrun.
  destruct (session (self st)) as [s|] eqn:Hs.
  2:{ inversion Hrun; subst. rewrite drop_all. intros Hev.
      destruct pre; discriminate. }
  cbn [self trace stdout] in Hrun.
  destruct (w_list_tools W (trace st)) as [tools|e] eqn:Hlist.
  2:{ inversion Hrun; subst. cbn [trace]. rewrite drop_app_length.
      intros Hev. split_calls pre Hev. }
  match type of Hrun with context [w_create W ?tr ?req] =>
    destruct (w_create W tr req) as [response0|e] eqn:Hcreate end.
  2:{ inversion Hrun; subst. cbn [trace].
      rewrite <- app_assoc, drop_app_length.
      intros Hev. split_calls pre Hev. }
  apply (for_content_invokes _ _ _ _ s) in Hrun
    as (evs & Htr & Hnext & Hlater); [|exact Hs].
  cbn [trace] in Htr. rewrite Htr, <- !app_assoc, drop_app_length.
  intros Hev Hwhen Hblock. cbn in Hev, Hblock.
  rewrite app_nil_r in Hblock. split_calls pre Hev.
  - cbn in Hblock. exact (Hnext _ _ Hblock).
  - cbn in Hblock. destruct Hwhen as [Hnone|Hreadable]; [discriminate|].
    exact (Hlater _ _ _ _ _ _ eq_refl Hreadable Hblock).
Qed.

End Progress.

(** ** What holds of every query *)

Section Properties.

Context {P : Payloads}.
Variable W : World.

(** C5.  For every query, the first model call carries no system prompt and
    every model call from the second onward carries [SYSTEM_PROMPT]. *)
Theorem system_prompt_from_second_call query st :
  match requests (during (process_query W query) st) with
  | [] => True
  | first :: followups =>
      system first = None
      /\ Forall (fun req => system req = Some SYSTEM_PROMPT) followups
  end.
Proof.
  destruct (process_query_run W query st) as (res & Hrun & _).
  inversion Hrun as [|e|listed e|listed response evs res' Hloop]; cbn; auto.
  split; [reflexivity|].
  apply loop_requests in Hloop as [Hreq _].
  eapply Forall_impl; [exact Hreq|].
  intros req [history ->]. reflexivity.
Qed.

(** C4, as the code has it.  The tool catalog is asked for once per query,
    before the first model call; the first model call declares the listed
    tools and no follow-up call declares any. *)
Theorem tools_declared_on_first_call_only query st :
  list_tools_calls (during (process_query W query) st) <= 1
  /\ match requests (during (process_query W query) st) with
     | [] => True
     | first :: followups =>
         (exists listed,
            head (during (process_query W query) st)
              = Some (EvListTools (Returns listed))
            /\ tools first = Some (map tool_decl listed))
         /\ Forall (fun req => tools req = None) followups
     end.
Proof.
  destruct (process_query_run W query st) as (res & Hrun & _).
  inversion Hrun as [|e|listed e|listed response evs res' Hloop]; cbn;
    try (split; [lia|]); eauto.
  apply loop_requests in Hloop as [Hreq Hlist].
  unfold list_tools_calls in Hlist. rewrite Hlist.
  split; [lia|]. split; [eauto|].
  eapply Forall_impl; [exact Hreq|].
  intros req [history ->]. reflexivity.
Qed.

(** C6.  When the model's answer to the first call contains no tool-use
    block, the query makes exactly one model call and [process_query]
    returns the texts of the text blocks of that response, in order, joined
    by newlines. *)
Theorem text_only_response query st listed req response evs :
  during (process_query W query) st
    = EvListTools (Returns listed) :: EvCreate req (Returns response) :: evs ->
  tool_uses response = [] ->
  length (requests (during (process_query W query) st)) = 1
  /\ (process_query W query st).1
       = Returns (String.concat newline (texts response)).
Proof.
  intros Hev Hnone.
  destruct (process_query_run W query st) as (res & Hrun & Hres & _).
  rewrite Hev in Hrun |- *. rewrite Hres.
  inversion Hrun as [| | |listed' response' evs' res' Hloop]; subst.
  destruct (loop_without_tool_use _ _ _ _ _ Hloop Hnone) as [-> ->].
  split; reflexivity.
Qed.

(** C9.  On a server configuration without a [command] entry, [connect]
    raises the configuration error (a [ValueError] saying that the
    configuration must include a command) and leaves the client, the trace
    of calls and the output as they were: no process is launched and no
    session is opened. *)
Theorem connect_without_command server_config st :
  server_config !! "command" = None ->
  connect W server_config st
    = (Raises (ValueError "Server configuration must include a 'command'"), st).
Proof.
  intros Hnone. unfold connect, dict_get. rewrite Hnone. reflexivity.
Qed.

(** C1, as the code has it.  When [process_query] returns an answer, the
    loop has run over the content blocks of the first model response only:
    after the first model call the query makes, for each tool-use block of
    the first response in order, one tool invocation with the block's name
    and arguments followed by one further model call, and no other call.
    The follow-up responses are not searched for tool-use blocks. *)
Theorem first_response_tool_uses_processed query st answer :
  (process_query W query st).1 = Returns answer ->
  exists listed req response rounds,
    during (process_query W query) st
      = EvListTools (Returns listed)
        :: EvCreate req (Returns response)
        :: concat (zip_with round_events (tool_uses response) rounds)
    /\ length rounds = length (tool_uses response).
Proof.
  intros Hret.
  destruct (process_query_run W query st) as (res & Hrun & Hres & _).
  rewrite Hres in Hret.
  inversion Hrun as [|e|listed e|listed response evs res' Hloop]; subst;
    try discriminate.
  destruct res as [r|e]; [|discriminate].
  destruct (loop_rounds _ _ _ _ _ Hloop r eq_refl) as (rounds & -> & Hlen).
  eexists listed, _, response, rounds. split; [reflexivity|exact Hlen].
Qed.

(** C2.  At every model call of a query: the tool invocations made so far
    are those of the first tool-use blocks of the first response, one per
    block, in order, and as many as model calls were made before; each of
    them has returned, and its result is the content of exactly one user
    message of the history sent with the call, in the same order.  And a
    tool-use block that the loop comes to is invoked at once: after the
    first model call, and after every follow-up call whose response could
    be read, the next call is the invocation of the next tool-use block of
    the first response, if one is left.  So every tool-use block the loop
    has come to is answered by exactly one tool-result message before the
    next model call, and no model call is issued while such a block is
    unanswered. *)
Theorem every_tool_use_answered_once query st pre req r post :
  during (process_query W query) st = pre ++ EvCreate req r :: post ->
  tool_calls pre
    = take (length (requests pre))
           (concat (map tool_uses
                        (take 1 (responses
                                   (during (process_query W query) st)))))
  /\ tool_answers pre = map Some (tool_results (messages req))
  /\ (forall response n a,
        r = Returns response ->
        requests pre = [] \/ head response ≫= block_text <> None ->
        concat (map tool_uses
                    (take 1 (responses (during (process_query W query) st))))
          !! length (tool_calls pre) = Some (n, a) ->
        exists o post', post = EvCallTool n a o :: post').
Proof.
  intros Hev. split; [|split].
  - destruct (process_query_run W query st) as (res & Hrun & _).
    rewrite Hev in Hrun |- *.
    inversion Hrun as [Hnil|e Hone|listed e Htwo
                      |listed response evs res' Hloop Hcalls]; subst.
    + destruct pre; discriminate.
    + split_calls pre Hone.
    + split_calls pre Htwo. reflexivity.
    + split_calls pre Hcalls; [reflexivity|].
      cbn. rewrite app_nil_r.
      exact (loop_invocations _ _ _ _ _ Hloop _ _ _ _ eq_refl).
  - destruct (process_query_run W query st) as (res & Hrun & _).
    rewrite Hev in Hrun.
    inversion Hrun as [Hnil|e Hone|listed e Htwo
                      |listed response evs res' Hloop Hcalls]; subst.
    + destruct pre; discriminate.
    + split_calls pre Hone.
    + split_calls pre Htwo. reflexivity.
    + split_calls pre Hcalls; [reflexivity|].
      rewrite (loop_answers _ _ _ _ _ Hloop _ _ _ _ eq_refl). reflexivity.
  - intros response n a -> Hwhen Hblock.
    rewrite during_conversation in Hev, Hblock.
    exact (conversation_invokes W query st pre req response post n a
             Hev Hwhen Hblock).
Qed.

(** C3, as the code has it.  When the conversation of a query runs to its
    end on a first response with N tool-use blocks, it has made exactly N
    model calls beyond the first, and the history has grown by one message
    per tool-use block (the user message with the tool result) plus one
    more (the assistant message) for each tool-use block that carries a
    non-empty text. *)
Theorem history_growth query st listed req response evs history final_text :
  during (conversation W query) st
    = EvListTools (Returns listed) :: EvCreate req (Returns response) :: evs ->
  (conversation W query st).1 = Returns (history, final_text) ->
  length (requests evs) = length (tool_uses response)
  /\ length history
     = 1 + length (tool_uses response) + texted_tool_uses response.
Proof.
  intros Hev Hret.
  destruct (process_query_run W query st) as (res & Hrun & _ & Hres).
  rewrite during_conversation, Hev in Hrun. rewrite Hret in Hres. subst res.
  inversion Hrun as [| | |listed' response' evs' res' Hloop]; subst.
  exact (loop_history _ _ _ _ _ Hloop _ _ eq_refl).
Qed.

(** C7, as the code has it.  The answer of [process_query] is the
    newline-joined [transcript] of the first response: the texts of its
    text blocks and, at the place of each of its tool-use blocks, the
    [Calling tool] marker followed by the text of the first block of the
    follow-up response to that block. *)
Theorem answer_is_transcript query st answer :
  (process_query W query st).1 = Returns answer ->
  exists listed req response evs,
    during (process_query W query) st
      = EvListTools (Returns listed) :: EvCreate req (Returns response) :: evs
    /\ answer = String.concat newline (transcript response (responses evs)).
Proof.
  intros Hret.
  destruct (process_query_run W query st) as (res & Hrun & Hres & _).
  rewrite Hres in Hret.
  inversion Hrun as [|e|listed e|listed response evs res' Hloop Hcalls];
    subst; try discriminate.
  destruct res as [[history final]|e]; [|discriminate].
  eexists listed, _, response, evs. split; [reflexivity|].
  rewrite (loop_transcript _ _ _ _ _ Hloop _ _ eq_refl) in Hret.
  cbn in Hret. congruence.
Qed.

(** C8.  Whenever a tool invocation returns a result, the very next call of
    the query is a model call, and the last message of the history it sends
    is the user message whose content is that result, as returned. *)
Theorem tool_result_roundtrip query st pre n a result post :
  during (process_query W query) st
    = pre ++ EvCallTool n a (Returns result) :: post ->
  exists req r post',
    post = EvCreate req r :: post'
    /\ last (messages req)
       = Some {| role := user; content := ToolPayload (result_content result) |}.
Proof.
  intros Hev.
  destruct (process_query_run W query st) as (res & Hrun & _).
  rewrite Hev in Hrun.
  inversion Hrun as [Hnil|e Hone|listed e Htwo
                    |listed response evs res' Hloop Hcalls]; subst.
  - destruct pre; discriminate.
  - split_calls pre Hone.
  - split_calls pre Htwo.
  - split_calls pre Hcalls.
    exact (loop_roundtrip _ _ _ _ _ Hloop _ _ _ _ _ eq_refl).
Qed.

(** The access [response.content[0].text] is not guarded: after a tool
    invocation, when the follow-up response is empty or its first block
    carries no [text] attribute, [process_query] raises ([IndexError] on
    the empty content, [AttributeError] otherwise) and makes no further
    call. *)
Lemma unguarded_first_text query st pre n a o req response post :
  during (process_query W query) st
    = pre ++ EvCallTool n a o :: EvCreate req (Returns response) :: post ->
  head response ≫= block_text = None ->
  (process_query W query st).1
    = Raises (match response with [] => IndexError | _ :: _ => AttributeError end)
  /\ post = [].
Proof.
  intros Hev Hnone.
  destruct (process_query_run W query st) as (res & Hrun & Hres & _).
  rewrite Hev in Hrun. rewrite Hres.
  inversion Hrun as [Hnil|e Hone|listed e Htwo
                    |listed response' evs res' Hloop Hcalls]; subst.
  - destruct pre; discriminate.
  - split_calls pre Hone.
  - split_calls pre Htwo.
  - split_calls pre Hcalls.
    destruct (loop_unguarded _ _ _ _ _ Hloop _ _ _ _ _ _ _ eq_refl Hnone)
      as [-> ->].
    split; reflexivity.
Qed.

(** C10.  After every tool invocation, [process_query] reads the [text] of
    the first content block of the follow-up model response without a
    guard: for a follow-up response, with blocks as the SDK declares them,
    whose content is empty or whose first block is not a text block,
    [process_query] raises ([IndexError] on the empty content,
    [AttributeError] otherwise) rather than returning an answer, and the
    follow-up call is its last call. *)
Theorem follow_up_without_text_block_raises
    query st pre n a o req response post :
  during (process_query W query) st
    = pre ++ EvCallTool n a o :: EvCreate req (Returns response) :: post ->
  (forall b, head response = Some b -> sdk_shaped b = true) ->
  match response with
  | [] => True
  | b :: _ => is_text_block b = false
  end ->
  (process_query W query st).1
    = Raises (match response with [] => IndexError | _ :: _ => AttributeError end)
  /\ post = [].
Proof.
  intros Hev Hshape Hnot.
  apply (unguarded_first_text query st pre n a o req response post Hev).
  destruct response as [|b rest]; [reflexivity|].
  specialize (Hshape b eq_refl).
  destruct b as [text|name input [text|]|type]; try discriminate; reflexivity.
Qed.

End Properties.

(** ** Further facts about the loop *)

Section MoreLoop.

Context {P : Payloads}.

(** A call that raises ends the loop with its exception, and is the last
    call. *)
Lemma loop_failure blocks history final_text evs res :
  loop_run blocks history final_text evs res ->
  forall pre ev post e,
    evs = pre ++ ev :: post ->
    raised ev = Some e ->
    res = Raises e /\ post = [].
Proof.
  induction 1 as [m f|t rest m f evs res _ IH|ty rest m f evs res _ IH
                 |n a t rest m f|n a t rest m f e
                 |n a t rest m f result e
                 |n a t rest m f result response e Hfirst
                 |n a t rest m f result response text evs res Hfirst _ IH];
    intros pre ev post e' Hev Hraised; eauto.
  - destruct pre; discriminate.
  - destruct pre; discriminate.
  - split_calls pre Hev. cbn in Hraised. simplify_eq. split; reflexivity.
  - split_calls pre Hev; cbn in Hraised; simplify_eq. split; reflexivity.
  - split_calls pre Hev; cbn in Hraised; simplify_eq.
  - split_calls pre Hev; cbn in Hraised; simplify_eq.
    exact (IH _ _ _ _ eq_refl Hraised).
Qed.

Lemma prefix_with_tool_result b result (history : list Message) :
  history `prefix_of` with_tool_result b result history.
Proof.
  unfold with_tool_result.
  destruct (has_nonempty_text b); rewrite <- ?app_assoc; apply prefix_app_r;
    reflexivity.
Qed.

(** Every history sent from inside the loop extends the history the loop
    started with. *)
Lemma loop_extends blocks history final_text evs res :
  loop_run blocks history final_text evs res ->
  Forall (fun req => history `prefix_of` messages req) (requests evs).
Proof.
  induction 1 as [m f|t rest m f evs res _ IH|ty rest m f evs res _ IH
                 |n a t rest m f|n a t rest m f e
                 |n a t rest m f result e
                 |n a t rest m f result response e Hfirst
                 |n a t rest m f result response text evs res Hfirst _ IH];
    cbn; try assumption; repeat constructor;
    try apply prefix_with_tool_result.
  eapply Forall_impl; [exact IH|].
  intros req Hreq. cbn in Hreq.
  etransitivity; [apply prefix_with_tool_result|exact Hreq].
Qed.

(** Inside the loop a later model call sends a history that extends the
    history of an earlier one. *)
Lemma loop_append_only blocks history final_text evs res :
  loop_run blocks history final_text evs res ->
  forall pre req o post,
    evs = pre ++ EvCreate req o :: post ->
    Forall (fun later => messages req `prefix_of` messages later)
           (requests post).
Proof.
  induction 1 as [m f|t rest m f evs res _ IH|ty rest m f evs res _ IH
                 |n a t rest m f|n a t rest m f e
                 |n a t rest m f result e
                 |n a t rest m f result response e Hfirst
                 |n a t rest m f result response text evs res Hfirst Hrun IH];
    intros pre req o post Hev; eauto.
  - destruct pre; discriminate.
  - destruct pre; discriminate.
  - split_calls pre Hev.
  - split_calls pre Hev. constructor.
  - split_calls pre Hev. constructor.
  - split_calls pre Hev.
    + exact (loop_extends _ _ _ _ _ Hrun).
    + exact (IH _ _ _ _ eq_refl).
Qed.

(** The loop makes at most one model call per tool invocation. *)
Lemma loop_calls_bound blocks history final_text evs res :
  loop_run blocks history final_text evs res ->
  length (requests evs) <= length (tool_calls evs).
Proof.
  induction 1; cbn; try assumption; try lia.
  unfold requests, tool_calls in *. lia.
Qed.

(** The loop enters no context. *)
Lemma loop_acquires_nothing blocks history final_text evs res :
  loop_run blocks history final_text evs res ->
  acquired evs = [].
Proof. induction 1; cbn; try assumption; reflexivity. Qed.

Lemma query_acquires_nothing query evs res :
  query_run query evs res -> acquired evs = [].
Proof.
  destruct 1 as [|e|tools e|tools response evs res Hloop]; cbn;
    try reflexivity.
  exact (loop_acquires_nothing _ _ _ _ _ Hloop).
Qed.

End MoreLoop.

(** ** More of what holds of every query *)

Section MoreProperties.

Context {P : Payloads}.
Variable W : World.

(** X1.  A query leaves the client object as it was (session, streams and
    exit stack), and the calls made before it stay in the trace: the calls
    of the query are added after them. *)
Theorem process_query_keeps_client query st :
  self (process_query W query st).2 = self st
  /\ trace (process_query W query st).2
     = trace st ++ during (process_query W query) st.
Proof.
  rewrite during_conversation, process_query_conversation. cbn [snd].
  destruct (conversation_run W query st) as (evs & Htr & Hself & _).
  split; [exact Hself|].
  unfold during. rewrite Htr, drop_app_length. reflexivity.
Qed.

(** X2.  On a client that has no session (before [connect]),
    [process_query] raises [AttributeError] at once: no call is made and
    nothing is printed. *)
Theorem process_query_without_session query st :
  session (self st) = None ->
  process_query W query st = (Raises AttributeError, st).
Proof.
  intros Hnone.
  unfold process_query, conversation, bind, session_list_tools, bind,
    self_session.
  rewrite Hnone. reflexivity.
Qed.

(** X3.  No exception of a collaborator is caught inside a query: when a
    call to the tool server or to the model raises, [process_query] raises
    that exception and the failed call is the last call of the query. *)
Theorem collaborator_failure_ends_query query st pre ev post e :
  during (process_query W query) st = pre ++ ev :: post ->
  raised ev = Some e ->
  (process_query W query st).1 = Raises e /\ post = [].
Proof.
  intros Hev Hraised.
  destruct (process_query_run W query st) as (res & Hrun & Hres & _).
  rewrite Hev in Hrun. rewrite Hres.
  inversion Hrun as [Hnil|e' Hone|listed e' Htwo
                    |listed response evs res' Hloop Hcalls]; subst.
  - destruct pre; discriminate.
  - split_calls pre Hone. cbn in Hraised. simplify_eq. split; reflexivity.
  - split_calls pre Htwo; cbn in Hraised; simplify_eq. split; reflexivity.
  - split_calls pre Hcalls; cbn in Hraised; simplify_eq.
    destruct (loop_failure _ _ _ _ _ Hloop _ _ _ _ eq_refl Hraised)
      as [-> ->].
    split; reflexivity.
Qed.

(** X4.  Every query starts from a fresh history: whatever the client did
    before, the first model call of a query sends the one user message
    holding the query. *)
Theorem first_history_is_query query st :
  match requests (during (process_query W query) st) with
  | [] => True
  | first :: _ =>
      messages first = [{| role := user; content := Text query |}]
  end.
Proof.
  destruct (process_query_run W query st) as (res & Hrun & _).
  inversion Hrun; cbn; auto.
Qed.

(** X5.  Within a query the history is append-only: the history sent with a
    model call is a prefix of the history sent with every later model call
    of the query. *)
Theorem history_append_only query st pre req o post :
  during (process_query W query) st = pre ++ EvCreate req o :: post ->
  Forall (fun later => messages req `prefix_of` messages later)
         (requests post).
Proof.
  intros Hev.
  destruct (process_query_run W query st) as (res & Hrun & _).
  rewrite Hev in Hrun.
  inversion Hrun as [Hnil|e Hone|listed e Htwo
                    |listed response evs res' Hloop Hcalls]; subst.
  - destruct pre; discriminate.
  - split_calls pre Hone.
  - split_calls pre Htwo. constructor.
  - split_calls pre Hcalls.
    + exact (loop_extends _ _ _ _ _ Hloop).
    + exact (loop_append_only _ _ _ _ _ Hloop _ _ _ _ eq_refl).
Qed.

(** X6.  A query is bounded by the first response: it makes at most one
    tool invocation per tool-use block of the first model response, and at
    most one model call per tool invocation beyond the first model call,
    whether it ends with an answer or with an exception. *)
Theorem calls_bounded query st :
  length (tool_calls (during (process_query W query) st))
    <= length (concat (map tool_uses
                 (take 1 (responses (during (process_query W query) st)))))
  /\ length (requests (during (process_query W query) st))
     <= 1 + length (tool_calls (during (process_query W query) st)).
Proof.
  destruct (process_query_run W query st) as (res & Hrun & _).
  inversion Hrun as [|e|listed e|listed response evs res' Hloop]; cbn;
    try (split; lia).
  rewrite app_nil_r.
  pose proof (prefix_length _ _ (loop_calls _ _ _ _ _ Hloop)) as Hle.
  pose proof (loop_calls_bound _ _ _ _ _ Hloop) as Hreq.
  unfold requests, tool_calls in *. split; lia.
Qed.

End MoreProperties.

(** ** [connect], call by call *)

Section Connect.

Context {P : Payloads}.
Variable W : World.

(** Every run of [connect] on a configuration with a command is a
    [connect_run]. *)
Lemma connect_runs server_config st :
  truthy (dict_get server_config "command") = true ->
  exists evs out,
    trace (connect W server_config st).2 = trace st ++ evs
    /\ stdout (connect W server_config st).2 = stdout st ++ out
    /\ connect_run (server_parameters server_config) (self st) evs
         (connect W server_config st).1
         (self (connect W server_config st).2) out.
Proof.
  intros Hcommand.
  destruct (connect W server_config st) as [res st'] eqn:Hrun. cbn [fst snd].
  unfold connect in Hrun. rewrite Hcommand in Hrun. cbn [negb] in Hrun.
  fold (server_parameters server_config) in Hrun.
  destruct (valid_parameters (server_parameters server_config)) eqn:Hvalid;
    cbn [negb] in Hrun.
  2:{ inversion Hrun; subst. exists [], []. rewrite !app_nil_r.
      repeat split. constructor. exact Hvalid. }
  unfold bind, enter_async_context, session_list_tools, self_session, call,
    update_self, print, ret, bind in Hrun.
  cbn [self trace stdout] in Hrun.
  destruct (w_stdio_client W (trace st) (server_parameters server_config))
    as [t|e] eqn:Htransport.
  2:{ inversion Hrun; subst. eexists [_], []. cbn [trace stdout self].
      rewrite app_nil_r. repeat split. destruct st; constructor. }
  cbn [self trace stdout session set_stdio_write push_exit_stack] in Hrun.
  match type of Hrun with context [w_client_session W ?tr t] =>
    destruct (w_client_session W tr t) as [s|e] eqn:Hsession end.
  2:{ inversion Hrun; subst. eexists [_; _], []. cbn [trace stdout self].
      rewrite app_nil_r, <- app_assoc. repeat split. constructor. }
  cbn [self trace stdout session set_session set_stdio_write push_exit_stack]
    in Hrun.
  match type of Hrun with context [w_initialize W ?tr] =>
    destruct (w_initialize W tr) as [[]|e] eqn:Hinit end.
  2:{ inversion Hrun; subst. eexists [_; _; _], []. cbn [trace stdout self].
      rewrite app_nil_r, <- !app_assoc. repeat split. constructor. }
  cbn [self trace stdout session set_session set_stdio_write push_exit_stack]
    in Hrun.
  match type of Hrun with context [w_list_tools W ?tr] =>
    destruct (w_list_tools W tr) as [tools|e] eqn:Hlist end.
  2:{ inversion Hrun; subst. eexists [_; _; _; _], []. cbn [trace stdout self].
      rewrite app_nil_r, <- !app_assoc. repeat split. constructor. }
  inversion Hrun; subst. eexists [_; _; _; _], [_]. cbn [trace stdout self].
  rewrite <- !app_assoc. repeat split. constructor.
Qed.

(** X7.  [connect] refuses every configuration whose [command] is absent
    or falsy (null, an empty string, an empty list, zero, false): it raises
    its [ValueError] before any call, and the client is as it was. *)
Theorem connect_rejects_falsy_command server_config st :
  truthy (dict_get server_config "command") = false ->
  connect W server_config st
    = (Raises (ValueError "Server configuration must include a 'command'"), st).
Proof. intros Hfalsy. unfold connect. rewrite Hfalsy. reflexivity. Qed.


(** X9.  Whatever the outcome of [connect], every context it has entered is
    on the exit stack of the client, after those that were there, in the
    order of entering: nothing entered escapes [cleanup]. *)
Theorem connect_registers_contexts server_config st :
  exit_stack (self (connect W server_config st).2)
    = exit_stack (self st) ++ acquired (during (connect W server_config) st).
Proof.
  destruct (truthy (dict_get server_config "command")) eqn:Hcommand.
  - destruct (connect_runs server_config st Hcommand)
      as (evs & out & Htr & _ & Hrun).
    unfold during. rewrite Htr, drop_app_length.
    inversion Hrun; subst; cbn; rewrite <- ?app_assoc, ?app_nil_r;
      reflexivity.
  - unfold during. rewrite (connect_rejects_falsy_command _ _ Hcommand).
    cbn. rewrite drop_all, app_nil_r. reflexivity.
Qed.

(** X10.  When [connect] returns, it has made exactly four calls, in this
    order: the launch of the server with the parameters of the
    configuration, the opening of the session on the transport obtained,
    [initialize], and [list_tools]; the session of the client is the one
    opened, and the names of the listed tools have been printed. *)
Theorem connect_success server_config st :
  (connect W server_config st).1 = Returns tt ->
  exists t s tools,
    during (connect W server_config) st
      = [EvStdioClient (server_parameters server_config) (Returns t);
         EvClientSession t (Returns s);
         EvInitialize (Returns tt);
         EvListTools (Returns tools)]
    /\ session (self (connect W server_config st).2) = Some s
    /\ stdout (connect W server_config st).2
       = stdout st ++ [PrintConnected (map tool_name tools)].
Proof.
  intros Hret.
  destruct (truthy (dict_get server_config "command")) eqn:Hcommand.
  2:{ rewrite (connect_rejects_falsy_command _ _ Hcommand) in Hret.
      discriminate. }
  destruct (connect_runs server_config st Hcommand)
    as (evs & out & Htr & Hout & Hrun).
  unfold during. rewrite Htr, drop_app_length, Hout.
  rewrite Hret in Hrun.
  inversion Hrun as [| | | |t s tools Hevs Hres Hself Hprinted|]; subst.
  exists t, s, tools. repeat split.
Qed.

(** X11.  [connect] sets the session of the client as soon as the session
    context is entered: the client holds the session opened even when
    [initialize] or [list_tools] then raises, and it holds the session it
    had when [connect] fails earlier. *)
Theorem connect_sets_session_on_entry server_config st :
  session (self (connect W server_config st).2)
    = match last (sessions_entered (during (connect W server_config) st)) with
      | Some s => Some s
      | None => session (self st)
      end.
Proof.
  destruct (truthy (dict_get server_config "command")) eqn:Hcommand.
  - destruct (connect_runs server_config st Hcommand)
      as (evs & out & Htr & _ & Hrun).
    unfold during. rewrite Htr, drop_app_length.
    inversion Hrun; subst; reflexivity.
  - unfold during. rewrite (connect_rejects_falsy_command _ _ Hcommand).
    cbn. rewrite drop_all. reflexivity.
Qed.

(** With a session, the first call of a query is [list_tools]. *)
Lemma conversation_first_call query st s :
  session (self st) = Some s ->
  exists r evs,
    trace (conversation W query st).2 = trace st ++ EvListTools r :: evs.
Proof.
  intros Hs.
  destruct (conversation W query st) as [res st'] eqn:Hrun. cbn [snd].
  unfold conversation, bind, session_list_tools, messages_create, call,
    self_session, bind in Hrun.
  cbn [self trace stdout] in Hrun. rewrite Hs in Hrun.
  cbn [self trace stdout] in Hrun.
  destruct (w_list_tools W (trace st)) as [tools|e] eqn:Hlist.
  2:{ inversion Hrun; subst. eexists _, []. reflexivity. }
  match type of Hrun with context [w_create W ?tr ?req] =>
    destruct (w_create W tr req) as [response|e] eqn:Hcreate end.
  2:{ inversion Hrun; subst. eexists _, [_]. cbn [trace].
      rewrite <- app_assoc. reflexivity. }
  apply for_content_run in Hrun as (evs & Htr & _ & _).
  cbn [trace] in Htr. eexists _, (_ :: evs).
  rewrite Htr, <- !app_assoc. reflexivity.
Qed.

(** X12.  After a [connect] that returned, a query reaches the tool server:
    its first call is [list_tools] (it does not fail for want of a
    session). *)
Theorem query_after_connect server_config st query :
  (connect W server_config st).1 = Returns tt ->
  exists r,
    head (during (process_query W query) (connect W server_config st).2)
      = Some (EvListTools r).
Proof.
  intros Hret.
  destruct (connect_success server_config st Hret)
    as (t & s & tools & _ & Hs & _).
  destruct (conversation_first_call query _ s Hs) as (r & evs & Htr).
  exists r. rewrite during_conversation. unfold during.
  rewrite Htr, drop_app_length. reflexivity.
Qed.

End Connect.

(** ** The shell *)

Section ShellProperties.

Context {P : Payloads} {Str : PyStr}.
Variable W : World.
Variable host : Host.

Lemma reported_app (a b : list Output) :
  reported (a ++ b) = reported a ++ reported b.
Proof. apply List.filter_app. Qed.

Lemma reported_client (printed : list Printed) :
  reported (map ClientPrinted printed) = [].
Proof. induction printed; cbn; auto. Qed.

(** The chat loop serves the lines before the first [quit], one query
    each. *)
Lemma while_true_serves lines :
  forall t fuel q rest,
    Forall (fun line => is_quit line = false) lines ->
    is_quit q = true ->
    stdin t = lines ++ q :: rest ->
    length lines < fuel ->
    exists t',
      while_true W fuel t = Some t'
      /\ state t' = after_queries W lines (state t)
      /\ stdin t' = rest
      /\ released t' = released t
      /\ reported (console t')
         = reported (console t) ++ reports W lines (state t).
Proof.
  induction lines as [|line lines IH]; intros t fuel q rest Hserved Hquit Hin Hfuel.
  - destruct fuel as [|fuel]; [cbn in Hfuel; lia|].
    cbn [while_true]. unfold input. cbn in Hin. rewrite Hin.
    unfold is_quit in Hquit. rewrite Hquit.
    eexists. split; [reflexivity|].
    cbn [state stdin released console after_queries foldl reports].
    rewrite reported_app. cbn. rewrite !app_nil_r. repeat split.
  - destruct fuel as [|fuel]; [cbn in Hfuel; lia|].
    apply Forall_cons in Hserved as [Hline Hserved].
    cbn [while_true]. unfold input. cbn in Hin. rewrite Hin.
    unfold is_quit in Hline. rewrite Hline.
    unfold run. cbn [state stdin console released fst snd].
    destruct (process_query W (strip line) (state t)) as [[response|e] st']
      eqn:Hquery; cbn [fst snd].
    + match goal with |- context [while_true W fuel ?t1] =>
        destruct (IH t1 fuel q rest Hserved Hquit eq_refl
                    ltac:(cbn in Hfuel; lia))
          as (t' & Hloop & Hstate & Hstdin & Hreleased & Hreports) end.
      exists t'. split; [exact Hloop|].
      cbn [state released console say] in *.
      rewrite Hstate, Hstdin, Hreleased, Hreports. cbn [after_queries foldl reports].
      rewrite Hquery. cbn [fst snd].
      rewrite !reported_app, reported_client. cbn.
      rewrite !app_nil_r, <- app_assoc. repeat split.
    + match goal with |- context [while_true W fuel ?t1] =>
        destruct (IH t1 fuel q rest Hserved Hquit eq_refl
                    ltac:(cbn in Hfuel; lia))
          as (t' & Hloop & Hstate & Hstdin & Hreleased & Hreports) end.
      exists t'. split; [exact Hloop|].
      cbn [state released console say] in *.
      rewrite Hstate, Hstdin, Hreleased, Hreports. cbn [after_queries foldl reports].
      rewrite Hquery. cbn [fst snd].
      rewrite !reported_app, reported_client. cbn.
      rewrite !app_nil_r, <- app_assoc. repeat split.
Qed.

(** X13.  When the user types [quit] (in any case, with any surrounding
    whitespace) after some other lines, the chat loop ends, given one unit
    of fuel per line: it has then run one query per line before the [quit],
    in order, each on the stripped line and each from the state the
    previous one left; the lines after the [quit] are left unread. *)
Theorem chat_loop_serves_until_quit lines t fuel q rest :
  Forall (fun line => is_quit line = false) lines ->
  is_quit q = true ->
  stdin t = lines ++ q :: rest ->
  length lines < fuel ->
  exists t',
    chat_loop W fuel t = Some t'
    /\ state t' = after_queries W lines (state t)
    /\ stdin t' = rest.
Proof.
  intros Hserved Hquit Hin Hfuel.
  destruct (while_true_serves lines (say PrintHelp (say PrintStarted t))
              fuel q rest Hserved Hquit Hin Hfuel)
    as (t' & Hloop & Hstate & Hstdin & _).
  exists t'. repeat split; assumption.
Qed.

(** X14.  The chat loop gives exactly one report per query typed before
    the [quit], in order: the answer of the query, or the exception it
    ended with.  An exception ends the query only: the next line is read
    and served all the same. *)
Theorem chat_loop_reports_each_query lines t fuel q rest :
  Forall (fun line => is_quit line = false) lines ->
  is_quit q = true ->
  stdin t = lines ++ q :: rest ->
  length lines < fuel ->
  exists t',
    chat_loop W fuel t = Some t'
    /\ reported (console t')
       = reported (console t) ++ reports W lines (state t).
Proof.
  intros Hserved Hquit Hin Hfuel.
  destruct (while_true_serves lines (say PrintHelp (say PrintStarted t))
              fuel q rest Hserved Hquit Hin Hfuel)
    as (t' & Hloop & _ & _ & _ & Hreports).
  exists t'. split; [exact Hloop|].
  rewrite Hreports. cbn [say console state].
  rewrite !reported_app. cbn. rewrite !app_nil_r. reflexivity.
Qed.

Lemma while_true_never_ends fuel :
  forall t,
    Forall (fun line => is_quit line = false) (stdin t) ->
    while_true W fuel t = None.
Proof.
  induction fuel as [|fuel IH]; intros t Hlines; [reflexivity|].
  cbn [while_true]. unfold input.
  destruct (stdin t) as [|line rest] eqn:Hin.
  - apply IH. cbn. rewrite Hin. constructor.
  - apply Forall_cons in Hlines as [Hline Hrest].
    unfold is_quit in Hline. rewrite Hline.
    unfold run. cbn [state stdin console released fst snd].
    destruct (process_query W (strip line) (state t)) as [[response|e] st'];
      cbn [fst snd]; apply IH; exact Hrest.
Qed.

(** X15.  Without a [quit] line the chat loop never ends: at the end of the
    input [input] raises, the exception is reported like that of a query,
    and the loop goes on for as long as it is given fuel. *)
Theorem chat_loop_never_ends_without_quit fuel t :
  Forall (fun line => is_quit line = false) (stdin t) ->
  chat_loop W fuel t = None.
Proof. intros Hlines. apply while_true_never_ends. exact Hlines. Qed.

Lemma acquired_app (a b : list Event) :
  acquired (a ++ b) = acquired a ++ acquired b.
Proof. apply omap_app. Qed.

Lemma while_true_keeps fuel :
  forall t t',
    while_true W fuel t = Some t' ->
    self (state t') = self (state t)
    /\ released t' = released t
    /\ exists evs,
         trace (state t') = trace (state t) ++ evs /\ acquired evs = [].
Proof.
  induction fuel as [|fuel IH]; intros t t' Hloop; [discriminate|].
  cbn [while_true] in Hloop. unfold input in Hloop.
  destruct (stdin t) as [|line rest] eqn:Hin.
  - apply IH in Hloop as (Hself & Hreleased & evs & Htr & Hnone).
    repeat split; try assumption. exists evs. split; assumption.
  - destruct (String.eqb (lower (strip line)) "quit").
    + inversion Hloop; subst. cbn. repeat split.
      exists []. rewrite app_nil_r. split; reflexivity.
    + unfold run in Hloop. cbn [state stdin console released fst snd] in Hloop.
      destruct (process_query_keeps_client W (strip line) (state t))
        as [Hkeeps Htrace].
      destruct (process_query_run W (strip line) (state t))
        as (res & Hrun & _).
      apply query_acquires_nothing in Hrun.
      destruct (process_query W (strip line) (state t)) as [[response|e] st']
        eqn:Hquery; cbn [fst snd] in *;
        apply IH in Hloop as (Hself & Hreleased & evs & Htr & Hnone);
        cbn [state released say] in *;
        (repeat split; [congruence|assumption|]);
        eexists (_ ++ evs);
        (split; [rewrite Htr, Htrace, <- app_assoc; reflexivity|]);
        rewrite acquired_app, Hrun, Hnone; reflexivity.
Qed.

(** X16.  The chat loop leaves the client object as it was, whatever the
    queries did: the session and the exit stack are those it started with;
    it exits no context, and the calls made before it stay in the trace. *)
Theorem chat_loop_keeps_client fuel t t' :
  chat_loop W fuel t = Some t' ->
  self (state t') = self (state t)
  /\ released t' = released t
  /\ trace (state t) `prefix_of` trace (state t').
Proof.
  intros Hloop.
  apply while_true_keeps in Hloop as (Hself & Hreleased & evs & Htr & _).
  cbn [say state released] in *. repeat split; try assumption.
  exists evs. exact Htr.
Qed.

Lemma aclose_releases above :
  forall pending t,
    released (aclose host above pending t).2 = released t ++ above
    /\ trace (state (aclose host above pending t).2) = trace (state t)
    /\ session (self (state (aclose host above pending t).2))
       = session (self (state t))
    /\ exit_stack (self (state (aclose host above pending t).2))
       = match above with
         | [] => exit_stack (self (state t))
         | _ :: _ => []
         end.
Proof.
  induction above as [|r below IH]; intros pending t.
  - cbn. rewrite app_nil_r. repeat split.
  - cbn [aclose].
    match goal with |- context [aclose host below ?p ?t1] =>
      destruct (IH p t1) as (Hreleased & Htrace & Hsession & Hstack) end.
    rewrite Hreleased, Htrace, Hsession, Hstack.
    cbn [released state set_exit_stack trace self session exit_stack].
    rewrite <- app_assoc. repeat split.
    destruct below; reflexivity.
Qed.

(** X17.  [cleanup] exits every context of the exit stack exactly once,
    the last entered first, and leaves the stack empty, whether or not an
    exit raises.  It makes no call to the server and does not reset the
    session of the client. *)
Theorem cleanup_releases_all t :
  released (cleanup host t).2
    = released t ++ reverse (exit_stack (self (state t)))
  /\ exit_stack (self (state (cleanup host t).2)) = []
  /\ trace (state (cleanup host t).2) = trace (state t)
  /\ session (self (state (cleanup host t).2)) = session (self (state t)).
Proof.
  unfold cleanup.
  destruct (aclose_releases (reverse (exit_stack (self (state t)))) None t)
    as (Hreleased & Htrace & Hsession & Hstack).
  repeat split; try assumption.
  rewrite Hstack.
  destruct (exit_stack (self (state t))) as [|r stack] eqn:Hs using rev_ind.
  - reflexivity.
  - rewrite reverse_snoc. reflexivity.
Qed.

End ShellProperties.

(** ** [main] *)

Section MainProperties.

Context {P : Payloads} {Str : PyStr}.
Variable W : World.
Variable host : Host.

Lemma connect_trace server_config st :
  trace (connect W server_config st).2
    = trace st ++ during (connect W server_config) st.
Proof.
  destruct (truthy (dict_get server_config "command")) eqn:Hcommand.
  - destruct (connect_runs W server_config st Hcommand)
      as (evs & out & Htr & _).
    unfold during. rewrite Htr, drop_app_length. reflexivity.
  - unfold during. rewrite (connect_rejects_falsy_command W _ _ Hcommand).
    cbn. rewrite drop_all, app_nil_r. reflexivity.
Qed.

(** What [main] does once the entry of the server is found: the client is
    built, [connect] and the chat loop run, and [cleanup] runs last. *)
Lemma main_session server_config fuel t ending t' :
  match new_client host t with
  | (Raises e, t) => Some (Uncaught e, t)
  | (Returns _, t) =>
      match connect_json W server_config t with
      | (Raises e, t) => Some (finally_cleanup host (Uncaught e) t)
      | (Returns _, t) =>
          match chat_loop W fuel t with
          | None => None
          | Some t => Some (finally_cleanup host Completed t)
          end
      end
  end = Some (ending, t') ->
  exists evs,
    trace (state t') = trace (state t) ++ evs
    /\ released t' = released t ++ reverse (acquired evs)
    /\ (evs <> [] ->
        exists d r rest,
          server_config = JDict d
          /\ truthy (dict_get (as_dict d) "command") = true
          /\ evs = EvStdioClient (server_parameters (as_dict d)) r :: rest).
Proof.
  intros Hmain. unfold new_client in Hmain.
  destruct (h_anthropic host) as [[]|e].
  2:{ inversion Hmain; subst. exists []. rewrite !app_nil_r.
      repeat split. congruence. }
  set (t0 := {| state := {| self := init; trace := trace (state t);
                            stdout := stdout (state t) |};
                stdin := stdin t; console := console t;
                released := released t |}) in *.
  assert (Hend : forall ending0 t1 evs,
            trace (state t1) = trace (state t) ++ evs ->
            released t1 = released t ->
            exit_stack (self (state t1)) = acquired evs ->
            finally_cleanup host ending0 t1 = (ending, t') ->
            trace (state t') = trace (state t) ++ evs
            /\ released t' = released t ++ reverse (acquired evs)).
  { intros ending0 t1 evs Htr Hrel Hstack Hfin. unfold finally_cleanup in Hfin.
    destruct (cleanup_releases_all host t1) as (Hreleased & _ & Htrace & _).
    destruct (cleanup host t1) as [[[]|e] t2]; inversion Hfin; subst;
      cbn [snd] in *; rewrite Htrace, Hreleased, Htr, Hrel, Hstack;
      split; reflexivity. }
  destruct server_config as [|b|n|s|l|d];
    try (unfold connect_json in Hmain; cbn beta iota in Hmain;
         apply (inj Some) in Hmain; rename Hmain into Hfin; exists [];
         destruct (Hend _ t0 [] ltac:(cbn; rewrite app_nil_r; reflexivity)
                     eq_refl eq_refl Hfin) as [Htr Hrel];
         repeat split; [exact Htr|exact Hrel|congruence]).
  unfold connect_json, run in Hmain. cbn [state stdin console released t0] in Hmain.
  set (st0 := {| self := init; trace := trace (state t);
                 stdout := stdout (state t) |}) in *.
  pose proof (connect_trace (as_dict d) st0) as Htrace.
  pose proof (connect_registers_contexts W (as_dict d) st0) as Hstack.
  cbn [self trace st0 exit_stack init app] in Htrace, Hstack.
  assert (Hfirst : during (connect W (as_dict d)) st0 <> [] ->
            exists r rest,
              truthy (dict_get (as_dict d) "command") = true
              /\ during (connect W (as_dict d)) st0
                 = EvStdioClient (server_parameters (as_dict d)) r :: rest).
  { intros Hsome.
    destruct (truthy (dict_get (as_dict d) "command")) eqn:Hcommand.
    - destruct (connect_runs W (as_dict d) st0 Hcommand)
        as (evs & out & Htr & _ & Hrun).
      unfold during in *. rewrite Htr, drop_app_length in *.
      inversion Hrun; subst; try (eexists _, _; split; reflexivity).
      contradiction.
    - exfalso. apply Hsome. unfold during.
      rewrite (connect_rejects_falsy_command W _ _ Hcommand).
      cbn. apply drop_all. }
  destruct (connect W (as_dict d) st0) as [[[]|e] st1] eqn:Hconnect;
    cbn [fst snd] in *.
  - destruct (chat_loop W fuel _) as [t2|] eqn:Hchat; [|discriminate].
    apply (inj Some) in Hmain. rename Hmain into Hfin.
    apply while_true_keeps in Hchat
      as (Hself & Hreleased & evs2 & Htr2 & Hnone).
    cbn [say state released self trace] in *.
    exists (during (connect W (as_dict d)) st0 ++ evs2).
    destruct (Hend _ t2 (during (connect W (as_dict d)) st0 ++ evs2)
                ltac:(rewrite Htr2, Htrace, <- app_assoc; reflexivity)
                Hreleased
                ltac:(rewrite Hself, Hstack, acquired_app, Hnone, app_nil_r;
                      reflexivity)
                Hfin) as [Htr Hrel].
    repeat split; [exact Htr|exact Hrel|].
    intros _.
    destruct (during (connect W (as_dict d)) st0) as [|ev evs1] eqn:Hd.
    + exfalso. destruct (connect_success W (as_dict d) st0)
        as (tr & s & tools & Hfour & _).
      * rewrite Hconnect. reflexivity.
      * rewrite Hd in Hfour. discriminate.
    + destruct Hfirst as (r & rest & Hcommand & Heq); [discriminate|].
      inversion Heq; subst. eexists d, r, _. repeat split. exact Hcommand.
  - apply (inj Some) in Hmain. rename Hmain into Hfin.
    exists (during (connect W (as_dict d)) st0).
    pose proof (fun evs Ha Hb Hc => Hend _ _ evs Ha Hb Hc Hfin) as Hend'.
    cbn [state released] in Hend'.
    destruct (Hend' _ Htrace eq_refl Hstack) as [Htr Hrel].
    repeat split; [exact Htr|exact Hrel|].
    intros Hsome. destruct (Hfirst Hsome) as (r & rest & Hcommand & Heq).
    exists d, r, rest. repeat split; assumption.
Qed.

(** [main] up to the entry of the server: either it ends before anything is
    called, or the entry is a truthy value found under the given name. *)
Lemma main_cases args fuel t ending t' :
  main W host args fuel t = Some (ending, t') ->
  (state t' = state t /\ released t' = released t)
  \/ exists config servers server_config,
       h_load host (arg_config args) = Loaded config
       /\ json_get config "mcpServers" (JDict []) = Returns servers
       /\ json_get servers (arg_server args) JNull = Returns server_config
       /\ truthy server_config = true
       /\ match new_client host t with
          | (Raises e, t) => Some (Uncaught e, t)
          | (Returns _, t) =>
              match connect_json W server_config t with
              | (Raises e, t) => Some (finally_cleanup host (Uncaught e) t)
              | (Returns _, t) =>
                  match chat_loop W fuel t with
                  | None => None
                  | Some t => Some (finally_cleanup host Completed t)
                  end
              end
          end = Some (ending, t').
Proof.
  intros Hmain. unfold main in Hmain.
  destruct (h_load host (arg_config args)) as [| |e|config] eqn:Hload;
    try (inversion Hmain; subst; left; split; reflexivity).
  destruct (json_get config "mcpServers" (JDict [])) as [servers|e] eqn:Hservers;
    [|inversion Hmain; subst; left; split; reflexivity].
  destruct (json_get servers (arg_server args) JNull) as [server_config|e]
    eqn:Hentry; [|inversion Hmain; subst; left; split; reflexivity].
  destruct (truthy server_config) eqn:Htruthy; cbn [negb] in Hmain;
    [|inversion Hmain; subst; left; split; reflexivity].
  right. exists config, servers, server_config. repeat split; assumption.
Qed.

(** X18.  [main] calls the tool server only for a server that the
    configuration file describes: when [main] has made any call, the file
    was loaded, its [mcpServers] entry for the given server name is a
    dictionary with a truthy [command], and the first call made is the
    launch of that server with the parameters of that entry. *)
Theorem main_launches_the_configured_server args fuel t ending t' :
  main W host args fuel t = Some (ending, t') ->
  trace (state t') <> trace (state t) ->
  exists config servers d r rest,
    h_load host (arg_config args) = Loaded config
    /\ json_get config "mcpServers" (JDict []) = Returns servers
    /\ json_get servers (arg_server args) JNull = Returns (JDict d)
    /\ truthy (dict_get (as_dict d) "command") = true
    /\ trace (state t')
       = trace (state t)
         ++ EvStdioClient (server_parameters (as_dict d)) r :: rest.
Proof.
  intros Hmain Hcalled.
  destruct (main_cases args fuel t ending t' Hmain)
    as [[Hstate _]|(config & servers & server_config
                    & Hload & Hservers & Hentry & _ & Hsession)].
  - rewrite Hstate in Hcalled. congruence.
  - destruct (main_session server_config fuel t ending t' Hsession)
      as (evs & Htr & _ & Hfirst).
    destruct Hfirst as (d & r & rest & -> & Hcommand & ->).
    + intros ->. rewrite app_nil_r in Htr. congruence.
    + exists config, servers, d, r, rest. repeat split; assumption.
Qed.

(** X19.  Whenever [main] ends, by returning, at a [sys.exit] or on an
    exception, every context it has entered has been exited, the last
    entered first: the server process and the session are released on
    every way out of [main]. *)
Theorem main_releases_what_it_acquires args fuel t ending t' :
  main W host args fuel t = Some (ending, t') ->
  released t'
    = released t
      ++ reverse (acquired (drop (length (trace (state t)))
                                 (trace (state t')))).
Proof.
  intros Hmain.
  destruct (main_cases args fuel t ending t' Hmain)
    as [[Hstate Hreleased]|(config & servers & server_config
                            & _ & _ & _ & _ & Hsession)].
  - rewrite Hstate, Hreleased, drop_all. cbn. rewrite app_nil_r. reflexivity.
  - destruct (main_session server_config fuel t ending t' Hsession)
      as (evs & Htr & Hrel & _).
    rewrite Htr, drop_app_length. exact Hrel.
Qed.

End MainProperties.

(** ** The scripted world: runs that instantiate the theorems, and runs that
    refute the statements of the specification that the code does not meet *)

Section Examples.

Import Scripted.

(** C1 as worded fails on the run against [asks_again]: the follow-up
    response holds a tool-use block, and yet it is the last model call of
    the query. *)
Lemma follow_up_tool_use_not_processed :
  ~ claimed_loop_until_no_tool_use (world asks_again) question connected.
Proof.
  intros H.
  refine (H (take 3 (calls asks_again))
            (followup_request history_after_query)
            asks_again_followup [] _ _ _); reflexivity.
Qed.

(** C1 as the code has it, on the run against [asks_again]. *)
Lemma first_response_tool_uses_processed_asks_again :
  exists listed req response rounds,
    calls asks_again
      = EvListTools (Returns listed)
        :: EvCreate req (Returns response)
        :: concat (zip_with round_events (tool_uses response) rounds)
    /\ length rounds = length (tool_uses response).
Proof.
  apply (first_response_tool_uses_processed (world asks_again) question
           connected
           ("[Calling tool query with args {}]" +:+ newline +:+ "One row.")).
  reflexivity.
Defined.

(** C2 at the second model call of the run against [two_tools]: the tool
    of the first block was invoked and answered, and the next call is the
    invocation of the tool of the second block. *)
Lemma every_tool_use_answered_once_two_tools :
  tool_calls (take 3 (calls two_tools))
    = take (length (requests (take 3 (calls two_tools))))
           (concat (map tool_uses (take 1 (responses (calls two_tools)))))
  /\ tool_answers (take 3 (calls two_tools))
     = map Some (tool_results history_after_query)
  /\ (forall response n a,
        Returns [TextBlock "One row."] = Returns response ->
        requests (take 3 (calls two_tools)) = []
        \/ head response ≫= block_text <> None ->
        concat (map tool_uses (take 1 (responses (calls two_tools))))
          !! length (tool_calls (take 3 (calls two_tools))) = Some (n, a) ->
        exists o post', drop 4 (calls two_tools) = EvCallTool n a o :: post').
Proof.
  apply (every_tool_use_answered_once (world two_tools) question connected
           (take 3 (calls two_tools))
           (followup_request history_after_query)
           (Returns [TextBlock "One row."])
           (drop 4 (calls two_tools))).
  reflexivity.
Defined.

(** C3 as worded fails on the run against [asks_again]: one tool-use block
    without text, and the history grows from one message to two. *)
Lemma history_grows_by_one :
  ~ claimed_two_messages_per_tool_use (world asks_again) question connected.
Proof.
  intros H.
  destruct (H [] _ _ _ _ _ eq_refl eq_refl) as [_ Hlen].
  - cbn. lia.
  - vm_compute in Hlen. discriminate.
Qed.

(** C3 as the code has it, on the run against [texted]: one tool-use block,
    with a text, and the history grows from one message to three. *)
Lemma history_growth_texted :
  length (requests (drop 2 (during (conversation (world texted) question)
                                   connected)))
    = 1
  /\ (exists history final_text,
        (conversation (world texted) question connected).1
          = Returns (history, final_text)
        /\ length history = 3).
Proof.
  destruct (history_growth (world texted) question connected
              [] _ _ _ _ _ eq_refl eq_refl) as [Hcalls Hlen].
  split; [exact Hcalls|].
  eexists _, _. split; [reflexivity|exact Hlen].
Defined.

(** C4 as worded fails on the run against [asks_again]: the second request
    declares no tool, and the catalog was asked for once for two model
    calls. *)
Lemma follow_up_declares_no_tool :
  ~ claimed_tools_on_every_call (world asks_again) question connected.
Proof.
  intros [_ H]. vm_compute in H. discriminate.
Qed.

(** C6 on the run against [plain]. *)
Lemma text_only_response_plain :
  length (requests (calls plain)) = 1
  /\ (process_query (world plain) question connected).1
     = Returns ("Hello" +:+ newline +:+ "world").
Proof.
  apply (text_only_response (world plain) question connected
           []
           (initial_request [{| role := user; content := Text question |}] [])
           [TextBlock "Hello"; OtherBlock "thinking"; TextBlock "world"]
           []);
    reflexivity.
Defined.

(** C7 as worded fails on the run against [asks_again]: the answer holds
    the [Calling tool] marker, which is no text block of the exchange, and
    lacks the second text block of the follow-up response. *)
Lemma answer_is_not_all_texts :
  ~ claimed_answer_is_all_texts (world asks_again) question connected.
Proof.
  intros H. specialize (H _ eq_refl). vm_compute in H. discriminate.
Qed.

(** C7 as the code has it, on the run against [texted]. *)
Lemma answer_is_transcript_texted :
  exists listed req response evs,
    calls texted
      = EvListTools (Returns listed) :: EvCreate req (Returns response) :: evs
    /\ "Looking." +:+ newline +:+ "[Calling tool query with args {}]"
         +:+ newline +:+ "Again." +:+ newline +:+ "Done."
       = String.concat newline (transcript response (responses evs)).
Proof.
  apply (answer_is_transcript (world texted) question connected).
  reflexivity.
Defined.

(** C8 at the tool invocation of the run against [asks_again]. *)
Lemma tool_result_roundtrip_asks_again :
  exists req r post',
    drop 3 (calls asks_again) = EvCreate req r :: post'
    /\ last (messages req)
       = Some {| role := user; content := ToolPayload ["result of query"] |}.
Proof.
  apply (tool_result_roundtrip (world asks_again) question connected
           (take 2 (calls asks_again)) "query" no_args query_result
           (drop 3 (calls asks_again))).
  reflexivity.
Defined.

(** C9 on a configuration that has [args] only, for a fresh client. *)
Lemma connect_without_command_args_only :
  connect (world []) {["args" := JList [JStr "server.py"]]} fresh
    = (Raises (ValueError "Server configuration must include a 'command'"),
       fresh).
Proof.
  apply (connect_without_command (world [])
           {["args" := JList [JStr "server.py"]]} fresh).
  reflexivity.
Defined.

(** The unguarded access on the run against [empty_followup]. *)
Lemma unguarded_first_text_empty_followup :
  (process_query (world empty_followup) question connected).1
    = Raises IndexError
  /\ drop 4 (calls empty_followup) = [].
Proof.
  apply (unguarded_first_text (world empty_followup) question connected
           (take 2 (calls empty_followup)) "query" no_args (Returns query_result)
           (followup_request history_after_query) []
           (drop 4 (calls empty_followup)));
    reflexivity.
Qed.

(** C10 on the run against [tool_use_followup]: the follow-up response
    starts with a tool-use block, and the text block after it is not
    looked for. *)
Lemma follow_up_without_text_block_raises_tool_use :
  (process_query (world tool_use_followup) question connected).1
    = Raises AttributeError
  /\ drop 4 (calls tool_use_followup) = [].
Proof.
  apply (follow_up_without_text_block_raises (world tool_use_followup)
           question connected
           (take 2 (calls tool_use_followup)) "query" no_args
           (Returns query_result)
           (followup_request history_after_query)
           [ToolUseBlock "query" no_args None; TextBlock "One row."]
           (drop 4 (calls tool_use_followup))).
  - reflexivity.
  - intros b Hb. injection Hb as <-. reflexivity.
  - reflexivity.
Defined.

End Examples.

(** ** The scripted terminal: runs that instantiate the further theorems *)

Section MoreExamples.

Import Scripted Keyboard.

(** X2 on the client before [connect]. *)
Lemma process_query_without_session_fresh :
  process_query (world plain) question fresh = (Raises AttributeError, fresh).
Proof.
  apply (process_query_without_session (world plain) question fresh).
  reflexivity.
Defined.

(** X3 on the run against [no_followup]: the second model call raises. *)
Lemma collaborator_failure_ends_query_no_followup :
  (process_query (world no_followup) question connected).1
    = Raises (Failure "no response left in the script")
  /\ drop 4 (calls no_followup) = [].
Proof.
  apply (collaborator_failure_ends_query (world no_followup) question connected
           (take 3 (calls no_followup))
           (EvCreate (followup_request history_after_query)
                     (Raises (Failure "no response left in the script")))
           (drop 4 (calls no_followup))
           (Failure "no response left in the script"));
    reflexivity.
Defined.

(** X5 at the first model call of the run against [asks_again]. *)
Lemma history_append_only_asks_again :
  Forall (fun later =>
            [{| role := user; content := Text question |}]
              `prefix_of` messages later)
         (requests (drop 2 (calls asks_again))).
Proof.
  apply (history_append_only (world asks_again) question connected
           (take 1 (calls asks_again))
           (initial_request [{| role := user; content := Text question |}] [])
           (Returns [ToolUseBlock "query" no_args None])
           (drop 2 (calls asks_again))).
  reflexivity.
Defined.

(** X7 on a configuration whose command is the empty string. *)
Lemma connect_rejects_falsy_command_empty :
  connect (world plain) empty_command fresh
    = (Raises (ValueError "Server configuration must include a 'command'"),
       fresh).
Proof.
  apply (connect_rejects_falsy_command (world plain) empty_command fresh).
  reflexivity.
Defined.


(** X10 on a configuration with a command only. *)
Lemma connect_success_command_only :
  exists t s tools,
    during (connect (world plain) command_only) fresh
      = [EvStdioClient (server_parameters command_only) (Returns t);
         EvClientSession t (Returns s);
         EvInitialize (Returns tt);
         EvListTools (Returns tools)]
    /\ session (self (connect (world plain) command_only fresh).2) = Some s
    /\ stdout (connect (world plain) command_only fresh).2
       = stdout fresh ++ [PrintConnected (map tool_name tools)].
Proof.
  apply (connect_success (world plain) command_only fresh).
  reflexivity.
Defined.

(** X12 for a query after that [connect]. *)
Lemma query_after_connect_command_only :
  exists r,
    head (during (process_query (world plain) question)
                 (connect (world plain) command_only fresh).2)
      = Some (EvListTools r).
Proof.
  apply (query_after_connect (world plain) command_only fresh question).
  reflexivity.
Defined.

(** X13 for two queries, then [quit] in capitals after a blank, then a
    line that is not read. *)
Lemma chat_loop_serves_until_quit_typed :
  exists t',
    chat_loop (world plain) 3 (typing ["hello"; "again"; " QUIT"; "more"])
      = Some t'
    /\ state t' = after_queries (world plain) ["hello"; "again"] connected
    /\ stdin t' = ["more"].
Proof.
  apply (chat_loop_serves_until_quit (world plain) ["hello"; "again"]
           (typing ["hello"; "again"; " QUIT"; "more"]) 3 " QUIT" ["more"]).
  - repeat constructor.
  - reflexivity.
  - reflexivity.
  - cbn. lia.
Defined.

(** X14 for the same lines: the first query is answered, the second raises
    (the script has one response) and is reported. *)
Lemma chat_loop_reports_each_query_typed :
  exists t',
    chat_loop (world plain) 3 (typing ["hello"; "again"; " QUIT"; "more"])
      = Some t'
    /\ reported (console t')
       = [PrintResponse ("Hello" +:+ newline +:+ "world");
          PrintError (Failure "no response left in the script")].
Proof.
  apply (chat_loop_reports_each_query (world plain) ["hello"; "again"]
           (typing ["hello"; "again"; " QUIT"; "more"]) 3 " QUIT" ["more"]).
  - repeat constructor.
  - reflexivity.
  - reflexivity.
  - cbn. lia.
Defined.

(** X15 for two lines without [quit], whatever the fuel. *)
Lemma chat_loop_never_ends_without_quit_typed :
  chat_loop (world plain) 1000 (typing ["hello"; "again"]) = None.
Proof.
  apply (chat_loop_never_ends_without_quit (world plain) 1000
           (typing ["hello"; "again"])).
  repeat constructor.
Defined.

(** X16 for a chat of one query. *)
Lemma chat_loop_keeps_client_typed :
  exists t',
    chat_loop (world plain) 2 (typing ["hello"; "quit"]) = Some t'
    /\ self (state t') = self connected
    /\ released t' = []
    /\ trace connected `prefix_of` trace (state t').
Proof.
  eexists. split; [reflexivity|].
  apply (chat_loop_keeps_client (world plain) 2 (typing ["hello"; "quit"])).
  reflexivity.
Defined.

(** X18 for [main] on [servers.json] and the server [db], with a chat of
    one query. *)
Lemma main_launches_the_configured_server_db :
  exists config servers d r rest,
    h_load host (arg_config command_line) = Loaded config
    /\ json_get config "mcpServers" (JDict []) = Returns servers
    /\ json_get servers (arg_server command_line) JNull = Returns (JDict d)
    /\ truthy (dict_get (as_dict d) "command") = true
    /\ trace (state db_session.2)
       = trace (state (starting ["hello"; "quit"]))
         ++ EvStdioClient (server_parameters (as_dict d)) r :: rest.
Proof.
  apply (main_launches_the_configured_server (world plain) host command_line 2
           (starting ["hello"; "quit"]) db_session.1 db_session.2).
  - reflexivity.
  - discriminate.
Defined.

(** X19 for the same run of [main]: two contexts were entered, and the
    session context is exited first, then the transport. *)
Lemma main_releases_what_it_acquires_db :
  released db_session.2
    = released (starting ["hello"; "quit"])
      ++ reverse (acquired (drop (length (trace (state (starting ["hello"; "quit"]))))
                                 (trace (state db_session.2)))).
Proof.
  apply (main_releases_what_it_acquires (world plain) host command_line 2
           (starting ["hello"; "quit"]) db_session.1 db_session.2).
  reflexivity.
Defined.

End MoreExamples.
